(** * House price predictor: feature encoding and prediction serving

    A shallow embedding of the two Streamlit scripts of the repository,
    [app.py] (module [App]) and [test.py] (module [Test]).  Both scripts
    read twelve widget values, turn them into a list of twelve integers,
    hand that list to a pickled estimator as a one-row batch and show the
    first element of the answer as a price.

    What is embedded: the conversion of the widget values, the dictionary
    lookup for the furnishing status, the cached artifact load, the
    [try]/[except] blocks, the indexing and the [,.2f] formatting of the
    prediction.  Static page markup (headers, CSS, the property summary)
    produces no value that the prediction depends on, raises nothing on
    widget values, and is not recorded. *)

From Stdlib Require Import ZArith NArith String Ascii List Lia SpecFloat.
From Stdlib Require Import DecimalString DecimalN DecimalPos.
From stdpp Require Import gmap strings list.

Open Scope string_scope.
Open Scope list_scope.
Open Scope Z_scope.

(** ** Python exceptions

    Only instances of [Exception] are modelled: these are what Python
    calls errors.  The interpreter's exit signals ([SystemExit],
    [KeyboardInterrupt]) are outside the embedding.  [OtherError] stands
    for any class that does not derive from the five named ones. *)

Inductive exn_class : Type :=
| FileNotFoundError
| KeyError
| AttributeError
| IndexError
| TypeError
| OtherError (name : string).

(** An exception object: its class and the text [str(e)] returns. *)
Record exn : Type := Exn { exn_type : exn_class; exn_str : string }.

Definition is_FileNotFoundError (e : exn) : bool :=
  match exn_type e with FileNotFoundError => true | _ => false end.

(** [isinstance(e, Exception)]: true of every modelled exception. *)
Definition is_Exception (e : exn) : bool := true.

Inductive res (A : Type) : Type :=
| Ok (a : A)
| Raise (e : exn).
Arguments Ok {A} a.
Arguments Raise {A} e.

(** ** Python values returned by an estimator

    A float is an IEEE binary64 value, in the Standard Library's
    specification type ([float], [numpy.float64]).  An int stands for
    [int], [bool] and the integer scalars of numpy, a string for [str].
    [PyArray] is an [ndarray] of one dimension or more, as the row of an
    estimator with several outputs is. *)

Inductive pyval : Type :=
| PyFloat (f : spec_float)
| PyInt (z : Z)
| PyStr (s : string)
| PyArray.

(** The type of the sequence an estimator answers with. *)
Inductive container : Type :=
| PyList
| NdArray.

(** The answer of [predict]: its type and its elements. *)
Record sequence : Type := Sequence { seq_type : container; items : list pyval }.

(** The batch handed to the estimator: a list of rows. *)
Definition batch : Type := list (list Z).

(** The unpickled object.  Its [predict] is read-only against the loaded
    parameters, hence a function. *)
Record estimator : Type := Estimator {
  predict : batch -> res (list pyval);
  answers_with : container
}.

(** ** The page and the process *)

Inductive element : Type :=
| StError (msg : string)
| StMarkdown (html : string)
| StException (e : exn).

(** An entry of [st.cache_resource]: the value the function returned and
    the elements it showed while computing it, which are shown again on
    every cache hit. *)
Definition cached : Type := option estimator * list element.

Record runtime : Type := Runtime {
  page : list element;
  inference_log : list batch;
  resource_cache : option cached
}.

(** ** The effect monad: state and exceptions *)

Definition M (A : Type) : Type := runtime -> res A * runtime.

Definition ret {A} (a : A) : M A := fun s => (Ok a, s).

Definition raise {A} (e : exn) : M A := fun s => (Raise e, s).

Definition bind {A B} (c : M A) (k : A -> M B) : M B :=
  fun s => match c s with
           | (Ok a, s') => k a s'
           | (Raise e, s') => (Raise e, s')
           end.

Notation "x <- c ;; k" := (bind c (fun x => k))
  (at level 100, c at next level, right associativity).
Notation "c ;;; k" := (bind c (fun _ => k))
  (at level 100, right associativity).

(** [try: body except C as e: handler e].  An exception whose class is not
    matched by the clause passes through, with the effects of [body]. *)
Definition try_except {A} (body : M A) (clause : exn -> bool)
    (handler : exn -> M A) : M A :=
  fun s => match body s with
           | (Ok a, s') => (Ok a, s')
           | (Raise e, s') => if clause e then handler e s' else (Raise e, s')
           end.

Definition add_element (el : element) (s : runtime) : runtime :=
  Runtime (page s ++ [el]) (inference_log s) (resource_cache s).

Definition log_call (x : batch) (s : runtime) : runtime :=
  Runtime (page s) (inference_log s ++ [x]) (resource_cache s).

Definition emit (el : element) : M unit := fun s => (Ok tt, add_element el s).

Definition st_error (msg : string) : M unit := emit (StError msg).

Definition st_markdown (html : string) : M unit := emit (StMarkdown html).

Fixpoint replay (els : list element) : M unit :=
  match els with
  | [] => ret tt
  | el :: rest => emit el ;;; replay rest
  end.

(** [@st.cache_resource] on a function without arguments.  On a miss the
    function runs; a returned value is stored together with the elements
    shown, a raised exception is passed on and nothing is stored.  On a
    hit the stored elements are shown again and the stored value is
    returned without running the function. *)
Definition cache_resource (f : M (option estimator)) : M (option estimator) :=
  fun s =>
    match resource_cache s with
    | Some (v, els) => (replay els ;;; ret v) s
    | None =>
        match f (Runtime [] (inference_log s) None) with
        | (Ok v, s') =>
            (Ok v, Runtime (page s ++ page s') (inference_log s')
                           (Some (v, page s')))
        | (Raise e, s') =>
            (Raise e, Runtime (page s ++ page s') (inference_log s') None)
        end
    end.

(** ** Built-in operations used by the scripts *)

Definition dquote : string := String "034"%char EmptyString.
Definition newline : string := String "010"%char EmptyString.

Definition hex_digit (n : N) : ascii :=
  match n with
  | 0%N => "0" | 1%N => "1" | 2%N => "2" | 3%N => "3" | 4%N => "4"
  | 5%N => "5" | 6%N => "6" | 7%N => "7" | 8%N => "8" | 9%N => "9"
  | 10%N => "a" | 11%N => "b" | 12%N => "c" | 13%N => "d" | 14%N => "e"
  | _ => "f"
  end%char.

Fixpoint contains_char (c : ascii) (s : string) : bool :=
  match s with
  | EmptyString => false
  | String a r => Ascii.eqb a c || contains_char c r
  end.

(** [\xhh] for the code point [n] below 256. *)
Definition hex_escape (n : N) : string :=
  String "\"%char (String "x"%char
    (String (hex_digit (n / 16)) (String (hex_digit (n mod 16)) EmptyString))).

(** One character of the ASCII range inside [repr]. *)
Definition repr_char (q a : ascii) : string :=
  let n := N_of_ascii a in
  if Ascii.eqb a q || Ascii.eqb a "\"%char then String "\"%char (String a EmptyString)
  else if (n =? 9)%N then "\t"
  else if (n =? 10)%N then "\n"
  else if (n =? 13)%N then "\r"
  else if (n <? 32)%N || (n =? 127)%N then hex_escape n
  else String a EmptyString.

(** The characters U+0080 to U+00A0 and U+00AD, which are not printable. *)
Definition latin1_unprintable (n : N) : bool :=
  ((128 <=? n) && (n <=? 160) || (n =? 173))%N.

(** A string is held as its UTF-8 bytes; byte 194 followed by [b] is the
    character with code point [b]. *)
Fixpoint repr_body (q : ascii) (s : string) : string :=
  match s with
  | EmptyString => EmptyString
  | String a r =>
      match r with
      | String b r' =>
          if (N_of_ascii a =? 194)%N && latin1_unprintable (N_of_ascii b)
          then hex_escape (N_of_ascii b) +:+ repr_body q r'
          else repr_char q a +:+ repr_body q r
      | EmptyString => repr_char q a
      end
  end.

(** [repr] of a string: single quotes unless the text has a single quote
    and no double quote.  Exact for text whose characters are below
    U+0100; a character from U+0100 on is taken to be printable and its
    bytes are kept as they are. *)
Definition py_repr (s : string) : string :=
  let q := if contains_char "039"%char s && negb (contains_char "034"%char s)
           then "034"%char else "039"%char in
  String q (repr_body q s) +:+ String q EmptyString.

(** [d[key]] on a [dict] with string keys. *)
Definition dict_getitem {V} (d : gmap string V) (key : string) : M V :=
  match d !! key with
  | Some v => ret v
  | None => raise (Exn KeyError (py_repr key))
  end.

(** [xs[0]] on a list or on an array; the text of the [IndexError] is
    the one of the type. *)
Definition getitem0 (xs : sequence) : M pyval :=
  match items xs !! 0%nat with
  | Some x => ret x
  | None =>
      raise (Exn IndexError
               match seq_type xs with
               | PyList => "list index out of range"
               | NdArray => "index 0 is out of bounds for axis 0 with size 0"
               end)
  end.

(** ** The format specification [,.2f]

    A finite binary64 value is [m * 2^e] with a sign.  The conversion to
    two decimals is the correctly rounded one, ties going to the even
    neighbour; the integer part is grouped in threes by commas. *)

(** [n / d] rounded to the nearest integer, ties to even. *)
Definition round_half_even (n d : N) : N :=
  let q := (n / d)%N in
  match (2 * (n mod d) ?= d)%N with
  | Lt => q
  | Eq => if N.even q then q else (q + 1)%N
  | Gt => (q + 1)%N
  end.

(** The number of hundredths nearest to [m * 2^e]. *)
Definition hundredths (m : positive) (e : Z) : N :=
  match e with
  | Z0 => (100 * Npos m)%N
  | Zpos p => (100 * Npos m * 2 ^ Npos p)%N
  | Zneg p => round_half_even (100 * Npos m) (2 ^ Npos p)
  end.

Definition digit_char (n : N) : ascii :=
  match n with
  | 0%N => "0" | 1%N => "1" | 2%N => "2" | 3%N => "3" | 4%N => "4"
  | 5%N => "5" | 6%N => "6" | 7%N => "7" | 8%N => "8" | _ => "9"
  end%char.

(** The decimal digits of [n], most significant first; ["0"] for zero. *)
Definition decimal (n : N) : list ascii :=
  list_ascii_of_string (NilZero.string_of_uint (N.to_uint n)).

(** Grouping by thousands, on the digits least significant first. *)
Fixpoint group_rev (ds : list ascii) : list ascii :=
  match ds with
  | a :: b :: c :: ((_ :: _) as rest) => a :: b :: c :: ","%char :: group_rev rest
  | _ => ds
  end.

Definition grouped (n : N) : string :=
  string_of_list_ascii (rev (group_rev (rev (decimal n)))).

(** A non-negative count of hundredths [q] as [i,iii.ff], with a sign. *)
Definition fixed2 (neg : bool) (q : N) : string :=
  (if neg then "-" else EmptyString) +:+ grouped (q / 100) +:+ "." +:+
  String (digit_char ((q mod 100) / 10)) (String (digit_char (q mod 10)) EmptyString).

(** [format(x, ',.2f')] for a float [x]. *)
Definition format_comma_2f (x : spec_float) : string :=
  match x with
  | S754_zero s => fixed2 s 0
  | S754_finite s m e => fixed2 s (hundredths m e)
  | S754_infinity s => if s then "-inf" else "inf"
  | S754_nan => "nan"
  end.

Definition finite_of (neg : bool) (m : N) (e : Z) : spec_float :=
  match m with
  | N0 => S754_zero neg
  | Npos p => S754_finite neg p e
  end.

(** [float(z)]: the nearest binary64 value, ties to even; [None] when
    that value would be [2^1024] or more ([OverflowError]). *)
Definition float_of_int (z : Z) : option spec_float :=
  let n := Z.abs_N z in
  let k := N.size n in
  if (k <=? 53)%N then Some (finite_of (z <? 0) n 0)
  else
    let sh := (k - 53)%N in
    let q := round_half_even n (2 ^ sh) in
    if (2 ^ 1024 <=? q * 2 ^ sh)%N then None
    else Some (finite_of (z <? 0) q (Z.of_N sh)).

(** [f"{v:,.2f}"].  An int is converted to a float first; a [str] knows
    no format code [f]; an array of one dimension or more has the
    [__format__] of [object], which rejects a non-empty specification. *)
Definition py_format_comma_2f (v : pyval) : M string :=
  match v with
  | PyFloat x => ret (format_comma_2f x)
  | PyInt z =>
      match float_of_int z with
      | Some x => ret (format_comma_2f x)
      | None =>
          raise (Exn (OtherError "OverflowError") "int too large to convert to float")
      end
  | PyStr _ =>
      raise (Exn (OtherError "ValueError")
                 "Unknown format code 'f' for object of type 'str'")
  | PyArray =>
      raise (Exn TypeError
                 "unsupported format string passed to numpy.ndarray.__format__")
  end.

(** ** The artifact file and the estimator call *)

(** What [joblib.load('Housing.pkl')] finds: no file, a file whose
    deserialization raises [e], or a pickled estimator. *)
Inductive artifact : Type :=
| Absent
| Unreadable (e : exn)
| Pickled (m : estimator).

Definition joblib_load (file : artifact) : M estimator :=
  match file with
  | Absent =>
      raise (Exn FileNotFoundError "[Errno 2] No such file or directory: 'Housing.pkl'")
  | Unreadable e => raise e
  | Pickled m => ret m
  end.

(** [model.predict(x)].  On [None] the attribute lookup raises and nothing
    is called; on an estimator the call is recorded in the inference log. *)
Definition call_predict (model : option estimator) (x : batch) : M sequence :=
  match model with
  | None => raise (Exn AttributeError "'NoneType' object has no attribute 'predict'")
  | Some m =>
      fun s => (match predict m x with
                | Ok xs => Ok (Sequence (answers_with m) xs)
                | Raise e => Raise e
                end, log_call x s)
  end.

(** ** The widget values *)

Record HouseFeatures : Type := HouseInput {
  area : Z;
  bedrooms : Z;
  bathrooms : Z;
  stories : Z;
  mainroad : string;
  guestroom : string;
  basement : string;
  hotwaterheating : string;
  airconditioning : string;
  parking : Z;
  prefarea : string;
  furnishingstatus : string
}.

(** [st.number_input(min_value=lo, max_value=hi)] yields a value in range;
    [st.selectbox(options)] yields one of the options. *)
Definition number_input_ok (lo hi v : Z) : bool := (lo <=? v) && (v <=? hi).

Definition selectbox_ok {A} (eqb : A -> A -> bool) (options : list A) (v : A) : bool :=
  existsb (eqb v) options.

(** The widget declarations, the same in both scripts. *)
Definition in_domain (h : HouseFeatures) : bool :=
  number_input_ok 1000 20000 (area h)
  && selectbox_ok Z.eqb [1; 2; 3; 4; 5; 6; 7; 8] (bedrooms h)
  && selectbox_ok Z.eqb [1; 2; 3; 4; 5; 6] (bathrooms h)
  && selectbox_ok Z.eqb [1; 2; 3; 4] (stories h)
  && selectbox_ok String.eqb ["No"; "Yes"] (mainroad h)
  && selectbox_ok String.eqb ["No"; "Yes"] (guestroom h)
  && selectbox_ok String.eqb ["No"; "Yes"] (basement h)
  && selectbox_ok String.eqb ["No"; "Yes"] (hotwaterheating h)
  && selectbox_ok String.eqb ["No"; "Yes"] (airconditioning h)
  && selectbox_ok Z.eqb [0; 1; 2; 3] (parking h)
  && selectbox_ok String.eqb ["No"; "Yes"] (prefarea h)
  && selectbox_ok String.eqb ["unfurnished"; "semi-furnished"; "furnished"]
       (furnishingstatus h).

Fixpoint spaces (n : nat) : string :=
  match n with
  | O => EmptyString
  | S k => String " "%char (spaces k)
  end.

(** ** [app.py] *)

Module App.

Definition load_model (file : artifact) : M (option estimator) :=
  cache_resource
    (try_except
       (model <- joblib_load file ;; ret (Some model))
       is_FileNotFoundError
       (fun _ => st_error "Model file 'Housing.pkl' not found." ;;; ret None)).

Definition furnishing_map : gmap string Z :=
  {[ "unfurnished" := 0; "semi-furnished" := 1; "furnished" := 2 ]}.

Definition input_features (h : HouseFeatures) : M (list Z) :=
  let mainroad_val := if String.eqb (mainroad h) "Yes" then 1 else 0 in
  let guestroom_val := if String.eqb (guestroom h) "Yes" then 1 else 0 in
  let basement_val := if String.eqb (basement h) "Yes" then 1 else 0 in
  let hotwaterheating_val := if String.eqb (hotwaterheating h) "Yes" then 1 else 0 in
  let airconditioning_val := if String.eqb (airconditioning h) "Yes" then 1 else 0 in
  let prefarea_val := if String.eqb (prefarea h) "Yes" then 1 else 0 in
  furnishing_val <- dict_getitem furnishing_map (furnishingstatus h) ;;
  ret [area h; bedrooms h; bathrooms h; stories h; mainroad_val;
       guestroom_val; basement_val; hotwaterheating_val;
       airconditioning_val; parking h; prefarea_val; furnishing_val].

Definition box_open : string :=
  newline +:+ spaces 16 +:+ "<div class=" +:+ dquote +:+ "prediction-box" +:+ dquote +:+ ">"
  +:+ newline +:+ spaces 20 +:+ "<h3>💰 Predicted House Price</h3>"
  +:+ newline +:+ spaces 20 +:+ "<div class=" +:+ dquote +:+ "prediction-value" +:+ dquote +:+ ">".

Definition box_close : string :=
  "</div>"
  +:+ newline +:+ spaces 20 +:+ "<p>Based on the provided features and market analysis</p>"
  +:+ newline +:+ spaces 16 +:+ "</div>"
  +:+ newline +:+ spaces 16.

(** The f-string of the result box; [text] is [{prediction:,.2f}]. *)
Definition prediction_box (text : string) : string :=
  box_open +:+ "$" +:+ text +:+ box_close.

(** The features are converted before the button is consulted. *)
Definition main (file : artifact) (h : HouseFeatures) (button : bool) : M unit :=
  model <- load_model file ;;
  features <- input_features h ;;
  if button then
    try_except
      (result <- call_predict model [features] ;;
       prediction <- getitem0 result ;;
       text <- py_format_comma_2f prediction ;;
       st_markdown (prediction_box text))
      is_Exception
      (fun e => st_error ("Error making prediction: " +:+ exn_str e))
  else ret tt.

End App.

(** ** [test.py] *)

Module Test.

Definition load_model (file : artifact) : M (option estimator) :=
  cache_resource
    (try_except
       (model <- joblib_load file ;; ret (Some model))
       is_FileNotFoundError
       (fun _ => st_error "Model file 'Housing.pkl' not found." ;;; ret None)).

Definition furnishing_map : gmap string Z :=
  {[ "unfurnished" := 0; "semi-furnished" := 1; "furnished" := 2 ]}.

(** The last widget value is held in the variable [furnishing] here. *)
Definition input_features (h : HouseFeatures) : M (list Z) :=
  let furnishing := furnishingstatus h in
  let mainroad_val := if String.eqb (mainroad h) "Yes" then 1 else 0 in
  let guestroom_val := if String.eqb (guestroom h) "Yes" then 1 else 0 in
  let basement_val := if String.eqb (basement h) "Yes" then 1 else 0 in
  let hotwaterheating_val := if String.eqb (hotwaterheating h) "Yes" then 1 else 0 in
  let airconditioning_val := if String.eqb (airconditioning h) "Yes" then 1 else 0 in
  let prefarea_val := if String.eqb (prefarea h) "Yes" then 1 else 0 in
  furnishing_val <- dict_getitem furnishing_map furnishing ;;
  ret [area h; bedrooms h; bathrooms h; stories h; mainroad_val;
       guestroom_val; basement_val; hotwaterheating_val;
       airconditioning_val; parking h; prefarea_val; furnishing_val].

Definition box_open : string :=
  newline +:+ spaces 12 +:+ "<div class=" +:+ dquote +:+ "prediction-result" +:+ dquote +:+ ">"
  +:+ newline +:+ spaces 16 +:+ "<h3>Predicted House Price</h3>"
  +:+ newline +:+ spaces 16 +:+ "<div class=" +:+ dquote +:+ "prediction-price" +:+ dquote +:+ ">".

Definition box_close : string :=
  "</div>"
  +:+ newline +:+ spaces 12 +:+ "</div>"
  +:+ newline +:+ spaces 12.

Definition prediction_box (text : string) : string :=
  box_open +:+ "$" +:+ text +:+ box_close.

(** The features are converted only once the button is pressed. *)
Definition main (file : artifact) (h : HouseFeatures) (button : bool) : M unit :=
  model <- load_model file ;;
  if button then
    features <- input_features h ;;
    try_except
      (result <- call_predict model [features] ;;
       prediction <- getitem0 result ;;
       text <- py_format_comma_2f prediction ;;
       st_markdown (prediction_box text))
      is_Exception
      (fun e => st_error ("Error making prediction: " +:+ exn_str e))
  else ret tt.

End Test.

(** ** The script runner

    Streamlit runs the script from top to bottom on every interaction.  An
    exception that leaves the script ends that run and is shown on the
    page as an exception box; the server and the resource cache live on. *)

Record interaction : Type := Interaction {
  file_now : artifact;
  widgets : HouseFeatures;
  button : bool
}.

Definition rerun (main : artifact -> HouseFeatures -> bool -> M unit)
    (i : interaction) (cache : option cached) : runtime :=
  match main (file_now i) (widgets i) (button i) (Runtime [] [] cache) with
  | (Ok _, s) => s
  | (Raise e, s) => add_element (StException e) s
  end.

(** The runs of a session, one per interaction, the cache carried along. *)
Fixpoint session (main : artifact -> HouseFeatures -> bool -> M unit)
    (steps : list interaction) (cache : option cached) : list runtime :=
  match steps with
  | [] => []
  | i :: rest =>
      let s := rerun main i cache in
      s :: session main rest (resource_cache s)
  end.

(** ** Vocabulary of the statements *)

(** [c] run [n] times in a row, the results collected. *)
Fixpoint repeatM {A} (n : nat) (c : M A) : M (list A) :=
  match n with
  | O => ret []
  | S k => x <- c ;; xs <- repeatM k c ;; ret (x :: xs)
  end.

(** A Yes/No widget value and the number at its place in the vector. *)
Definition yes_no_code (field : string) (x : option Z) : Prop :=
  (field = "Yes" /\ x = Some 1) \/ (field = "No" /\ x = Some 0).

Definition furnishing_code (field : string) (x : option Z) : Prop :=
  (field = "unfurnished" /\ x = Some 0)
  \/ (field = "semi-furnished" /\ x = Some 1)
  \/ (field = "furnished" /\ x = Some 2).

(** The [try] statement of both scripts; they differ in the box only. *)
Definition try_statement (box : string -> string) (model : option estimator)
    (features : list Z) : M unit :=
  try_except
    (result <- call_predict model [features] ;;
     prediction <- getitem0 result ;;
     text <- py_format_comma_2f prediction ;;
     st_markdown (box text))
    is_Exception
    (fun e => st_error ("Error making prediction: " +:+ exn_str e)).

(** The message of [load_model] and the message of the [except] clause. *)
Definition not_found : element := StError "Model file 'Housing.pkl' not found.".

Definition prediction_error (e : exn) : element :=
  StError ("Error making prediction: " +:+ exn_str e).

Definition none_has_no_predict : exn :=
  Exn AttributeError "'NoneType' object has no attribute 'predict'".

(** What indexing an empty answer raises. *)
Definition index_error (c : container) : exn :=
  Exn IndexError
      match c with
      | PyList => "list index out of range"
      | NdArray => "index 0 is out of bounds for axis 0 with size 0"
      end.

(** What the [try] statement shows for the first element of an answer:
    the box with its text, or the message of what the format raised. *)
Definition shown_for (box : string -> string) (first : pyval) : element :=
  match fst (py_format_comma_2f first (Runtime [] [] None)) with
  | Ok text => StMarkdown (box text)
  | Raise e => StError ("Error making prediction: " +:+ exn_str e)
  end.

(** The entries [load_model] can leave in the cache. *)
Definition cache_wf (c : option cached) : Prop :=
  c = None \/ c = Some (None, [not_found]) \/ exists m, c = Some (Some m, []).

(** What [load_model] gives in a run that starts with cache [c]
    ([Test.load_model] is the same function). *)
Definition load_outcome (file : artifact) (c : option cached) : res (option estimator) :=
  fst (App.load_model file (Runtime [] [] c)).

(** An element that tells the user of an error. *)
Definition is_error_display (el : element) : bool :=
  match el with
  | StError _ | StException _ => true
  | StMarkdown _ => false
  end.

(** A run in which no inference was made and an error is on the page. *)
Definition no_prediction_but_error (s : runtime) : Prop :=
  inference_log s = [] /\ Exists (fun el => is_error_display el = true) (page s).

(** [main] goes on to its end in a degraded mode: it returns normally,
    having made no inference and with an error on the page. *)
Definition continues_degraded (main : artifact -> HouseFeatures -> bool -> M unit)
    (file : artifact) (h : HouseFeatures) (b : bool) (s : runtime) : Prop :=
  exists s', main file h b s = (Ok tt, s') /\
             inference_log s' = inference_log s /\
             Exists (fun el => is_error_display el = true) (page s').

(** Reading a shown price back. *)
Definition is_digit (c : ascii) : bool :=
  ((48 <=? N_of_ascii c) && (N_of_ascii c <=? 57))%N.

Definition digit_value (c : ascii) : N := (N_of_ascii c - 48)%N.

(** The text has a decimal point, followed by two digits and nothing more. *)
Fixpoint two_decimal_places (s : string) : bool :=
  match s with
  | EmptyString => false
  | String c r =>
      if Ascii.eqb c "."%char then
        match r with
        | String d1 (String d2 EmptyString) => is_digit d1 && is_digit d2
        | _ => false
        end
      else two_decimal_places r
  end.

Definition read_digit (acc : N) (c : ascii) : N :=
  if is_digit c then (10 * acc + digit_value c)%N else acc.

(** The number the digits of the text spell, sign, commas and point left
    out: for a text with two decimal places, the count of hundredths. *)
Definition hundredths_shown (s : string) : N :=
  fold_left read_digit (list_ascii_of_string s) 0%N.

Definition shown_negative (s : string) : bool :=
  match s with
  | String c _ => Ascii.eqb c "-"%char
  | EmptyString => false
  end.

Definition is_finite (x : spec_float) : bool :=
  match x with
  | S754_zero _ | S754_finite _ _ _ => true
  | S754_infinity _ | S754_nan => false
  end.

Definition sign_bit (x : spec_float) : bool :=
  match x with
  | S754_zero s | S754_finite s _ _ | S754_infinity s => s
  | S754_nan => false
  end.

(** [q] hundredths is a nearest multiple of 0.01 to the magnitude of [x]:
    [|100 * m * 2^e - q| <= 1/2], with the power of two cleared. *)
Definition nearest_hundredths (x : spec_float) (q : N) : Prop :=
  match x with
  | S754_zero _ => q = 0%N
  | S754_finite _ m e =>
      2 * Z.abs (100 * Zpos m * 2 ^ Z.max 0 e - Z.of_N q * 2 ^ Z.max 0 (- e))
      <= 2 ^ Z.max 0 (- e)
  | S754_infinity _ | S754_nan => False
  end.

(** The failed state never ends: after an interaction at which the load
    gave no estimator, no run makes an inference and each shows an error. *)
Definition failed_state_is_terminal
    (main : artifact -> HouseFeatures -> bool -> M unit) : Prop :=
  forall (i : interaction) (steps : list interaction),
    (forall m, load_outcome (file_now i) None <> Ok (Some m)) ->
    Forall no_prediction_but_error (session main (i :: steps) None).

(** The caches a process can hold: the start, and after any interaction. *)
Inductive reachable (main : artifact -> HouseFeatures -> bool -> M unit) :
    option cached -> Prop :=
| reachable_start : reachable main None
| reachable_rerun (c : option cached) (i : interaction) :
    reachable main c -> reachable main (resource_cache (rerun main i c)).

(** ** Sample inputs *)

(** A process that has just started: empty page, empty cache. *)
Definition process_start : runtime := Runtime [] [] None.

(** The two ends of the area range. *)
Definition example_1000 : HouseFeatures :=
  HouseInput 1000 1 1 1 "No" "No" "No" "No" "No" 0 "No" "unfurnished".

Definition example_20000 : HouseFeatures :=
  HouseInput 20000 8 6 4 "Yes" "No" "Yes" "No" "Yes" 3 "No" "semi-furnished".

(** The default values of the widgets. *)
Definition example_default : HouseFeatures :=
  HouseInput 7000 4 3 3 "Yes" "Yes" "Yes" "Yes" "Yes" 2 "Yes" "furnished".

(** A value outside the options of the furnishing widget. *)
Definition example_luxury : HouseFeatures :=
  HouseInput 7000 4 3 3 "Yes" "Yes" "Yes" "Yes" "Yes" 2 "Yes" "luxury".

(** An estimator whose [predict] answers [v] whatever the batch. *)
Definition stub_model (v : spec_float) : estimator :=
  Estimator (fun _ => Ok [PyFloat v]) NdArray.

(** An estimator whose [predict] raises [e] whatever the batch. *)
Definition failing_model (e : exn) : estimator :=
  Estimator (fun _ => Raise e) NdArray.

(** What unpickling a damaged file raises. *)
Definition unpickling_error : exn :=
  Exn (OtherError "UnpicklingError") "invalid load key, 'x'.".

(** What a twelve-column regressor raises on a row of another width. *)
Definition shape_error : exn :=
  Exn (OtherError "ValueError")
      "X has 11 features, but LinearRegression is expecting 12 features as input.".

(** 13300000.0 as a binary64 value. *)
Definition price_13300000 : spec_float := S754_finite false 13300000 0.

(** 4766318.9375 as a binary64 value: 76261103 / 16. *)
Definition price_4766318 : spec_float := S754_finite false 76261103 (-4).

(** ** The property summary of [app.py]

    The left column of [app.py] shows the inputs back to the user: a table
    built from [summary_data] and a checklist built from [features]. *)

Module AppSummary.

(** [format(z, ',')] for an int. *)
Definition format_comma_int (z : Z) : string :=
  (if z <? 0 then "-" else EmptyString) +:+ grouped (Z.abs_N z).

Definition is_upper (c : ascii) : bool :=
  ((65 <=? N_of_ascii c) && (N_of_ascii c <=? 90))%N.

Definition is_lower (c : ascii) : bool :=
  ((97 <=? N_of_ascii c) && (N_of_ascii c <=? 122))%N.

Definition to_upper (c : ascii) : ascii :=
  if is_lower c then ascii_of_N (N_of_ascii c - 32) else c.

Definition to_lower (c : ascii) : ascii :=
  if is_upper c then ascii_of_N (N_of_ascii c + 32) else c.

(** [str.title()] on ASCII text: a letter is put in upper case after a
    character that is no letter and in lower case after a letter.  Bytes
    above 127 are kept and count as no letter. *)
Fixpoint title_from (previous_is_cased : bool) (s : string) : string :=
  match s with
  | EmptyString => EmptyString
  | String c r =>
      String (if previous_is_cased then to_lower c else to_upper c)
             (title_from (is_upper c || is_lower c) r)
  end.

Definition title (s : string) : string := title_from false s.

(** A cell of the table: text or an int. *)
Inductive cell : Type :=
| Text (s : string)
| Int (z : Z).

(** The dictionary [summary_data], as its two columns. *)
Definition summary_data (h : HouseFeatures) : list string * list cell :=
  (["Area"; "Bedrooms"; "Bathrooms"; "Stories"; "Parking"; "Furnishing"],
   [Text (format_comma_int (area h) +:+ " sq ft"); Int (bedrooms h);
    Int (bathrooms h); Int (stories h); Int (parking h);
    Text (title (furnishingstatus h))]).

Definition features (h : HouseFeatures) : list string :=
  [(if String.eqb (mainroad h) "Yes" then "✅" else "❌") +:+ " Main Road Access";
   (if String.eqb (guestroom h) "Yes" then "✅" else "❌") +:+ " Guest Room";
   (if String.eqb (basement h) "Yes" then "✅" else "❌") +:+ " Basement";
   (if String.eqb (hotwaterheating h) "Yes" then "✅" else "❌") +:+ " Hot Water Heating";
   (if String.eqb (airconditioning h) "Yes" then "✅" else "❌") +:+ " Air Conditioning";
   (if String.eqb (prefarea h) "Yes" then "✅" else "❌") +:+ " Preferred Area"].

(** [for feature in features: st.markdown(f"- {feature}")]. *)
Fixpoint checklist (lines : list string) : M unit :=
  match lines with
  | [] => ret tt
  | feature :: rest => st_markdown ("- " +:+ feature) ;;; checklist rest
  end.

End AppSummary.

(** ** Further vocabulary *)

(** A checklist line that carries the tick. *)
Definition ticked (line : string) : bool := String.prefix "✅" line.

(** The cache a session leaves behind. *)
Fixpoint cache_after (main : artifact -> HouseFeatures -> bool -> M unit)
    (steps : list interaction) (cache : option cached) : option cached :=
  match steps with
  | [] => cache
  | i :: rest => cache_after main rest (resource_cache (rerun main i cache))
  end.

(** An interaction that finds a file whose deserialization raises
    something other than [FileNotFoundError]. *)
Definition finds_damaged_file (i : interaction) : bool :=
  match file_now i with
  | Unreadable e => negb (is_FileNotFoundError e)
  | Absent | Pickled _ => false
  end.

(** ** Further sample inputs *)

(** An estimator that answers with an empty sequence. *)
Definition empty_model : estimator := Estimator (fun _ => Ok []) NdArray.

(** An estimator with several outputs per row: the first element of its
    answer is an array, not a number. *)
Definition multi_output_model : estimator :=
  Estimator (fun _ => Ok [PyArray]) NdArray.

(** A classifier with text labels, and one with number labels. *)
Definition text_label_model : estimator :=
  Estimator (fun _ => Ok [PyStr "expensive"]) NdArray.

Definition number_label_model : estimator :=
  Estimator (fun _ => Ok [PyInt 13300000]) NdArray.

(** -0.001953125, that is [-1 * 2^-9]. *)
Definition minus_tiny : spec_float := S754_finite true 1 (-9).

(** What [joblib.load] raises when a companion file of the pickle, an
    array stored beside it, is gone. *)
Definition companion_missing : exn :=
  Exn FileNotFoundError "[Errno 2] No such file or directory: 'Housing.pkl_01.npy'".

(** Widget values no widget can give: a negative area, lower-case text
    in a Yes/No field. *)
Definition example_unchecked : HouseFeatures :=
  HouseInput (-5) 0 99 0 "yes" "YES" EmptyString "No" "Yes" (-1) "maybe" "furnished".

(** The default values, but for the access to the main road. *)
Definition example_no_road : HouseFeatures :=
  HouseInput 7000 4 3 3 "No" "Yes" "Yes" "Yes" "Yes" 2 "Yes" "furnished".

(** * Properties *)

(** ** The furnishing dictionary *)

Lemma furnishing_map_same : Test.furnishing_map = App.furnishing_map.
Proof. reflexivity. Qed.

Lemma furnishing_map_unfurnished : App.furnishing_map !! "unfurnished" = Some 0.
Proof. reflexivity. Qed.

Lemma furnishing_map_semi : App.furnishing_map !! "semi-furnished" = Some 1.
Proof. vm_compute. reflexivity. Qed.

Lemma furnishing_map_furnished : App.furnishing_map !! "furnished" = Some 2.
Proof. vm_compute. reflexivity. Qed.

Lemma furnishing_map_other (f : string) :
  f <> "unfurnished" -> f <> "semi-furnished" -> f <> "furnished" ->
  App.furnishing_map !! f = None.
Proof.
  intros H1 H2 H3. unfold App.furnishing_map.
  rewrite !lookup_insert_ne by congruence.
  rewrite lookup_singleton_ne by congruence. reflexivity.
Qed.

(** The keys of the dictionary are exactly the options of the widget. *)
Lemma furnishing_map_keys (f : string) :
  is_Some (App.furnishing_map !! f) <->
  selectbox_ok String.eqb ["unfurnished"; "semi-furnished"; "furnished"] f = true.
Proof.
  unfold selectbox_ok. simpl. rewrite !orb_true_iff, !String.eqb_eq. split.
  - intros [v Hv].
    destruct (string_dec f "unfurnished") as [->|H1]; [tauto|].
    destruct (string_dec f "semi-furnished") as [->|H2]; [tauto|].
    destruct (string_dec f "furnished") as [->|H3]; [tauto|].
    rewrite furnishing_map_other in Hv by assumption. discriminate.
  - intros [->|[->|[->|?]]]; try discriminate; eexists;
      [apply furnishing_map_unfurnished | apply furnishing_map_semi
      | apply furnishing_map_furnished].
Qed.

(** ** The conversion of the widget values *)

(** Both scripts convert by the same computation. *)
Lemma input_features_same (h : HouseFeatures) :
  Test.input_features h = App.input_features h.
Proof. reflexivity. Qed.

Lemma input_features_ok (h : HouseFeatures) (fs : Z) (s : runtime) :
  App.furnishing_map !! furnishingstatus h = Some fs ->
  App.input_features h s =
    (Ok [area h; bedrooms h; bathrooms h; stories h;
         Z.b2z (String.eqb (mainroad h) "Yes");
         Z.b2z (String.eqb (guestroom h) "Yes");
         Z.b2z (String.eqb (basement h) "Yes");
         Z.b2z (String.eqb (hotwaterheating h) "Yes");
         Z.b2z (String.eqb (airconditioning h) "Yes");
         parking h;
         Z.b2z (String.eqb (prefarea h) "Yes");
         fs], s).
Proof.
  intros Hfs. unfold App.input_features, dict_getitem, bind, ret.
  rewrite Hfs. cbn.
  repeat match goal with |- context [String.eqb ?a ?b] =>
    destruct (String.eqb a b) end; reflexivity.
Qed.

Lemma input_features_key_error (h : HouseFeatures) (s : runtime) :
  App.furnishing_map !! furnishingstatus h = None ->
  App.input_features h s = (Raise (Exn KeyError (py_repr (furnishingstatus h))), s).
Proof.
  intros Hfs. unfold App.input_features, dict_getitem, bind, raise.
  rewrite Hfs. reflexivity.
Qed.

Lemma in_domain_furnishing (h : HouseFeatures) :
  in_domain h = true -> is_Some (App.furnishing_map !! furnishingstatus h).
Proof.
  unfold in_domain. rewrite !andb_true_iff. intros [_ H].
  apply furnishing_map_keys, H.
Qed.

Lemma in_domain_furnishing_code (h : HouseFeatures) (fs : Z) :
  in_domain h = true ->
  App.furnishing_map !! furnishingstatus h = Some fs ->
  furnishing_code (furnishingstatus h) (Some fs).
Proof.
  unfold in_domain. rewrite !andb_true_iff. intros [_ H].
  unfold selectbox_ok in H. simpl in H.
  rewrite !orb_true_iff, !String.eqb_eq in H. unfold furnishing_code.
  destruct H as [H|[H|[H|H]]]; try discriminate; rewrite H; intros Hfs.
  - rewrite furnishing_map_unfurnished in Hfs. auto.
  - rewrite furnishing_map_semi in Hfs. auto.
  - rewrite furnishing_map_furnished in Hfs. auto.
Qed.

Lemma yes_no_code_b2z (field : string) :
  selectbox_ok String.eqb ["No"; "Yes"] field = true ->
  yes_no_code field (Some (Z.b2z (String.eqb field "Yes"))).
Proof.
  unfold selectbox_ok. simpl. rewrite !orb_true_iff, !String.eqb_eq.
  unfold yes_no_code. intros [->|[->|?]]; try discriminate; cbn; auto.
Qed.


(** C1: for every input within the widget domains both scripts build the
    list of twelve numbers in the order area, bedrooms, bathrooms, stories,
    mainroad, guestroom, basement, hotwaterheating, airconditioning,
    parking, prefarea, furnishingstatus. *)
Theorem input_features_twelve_in_order (h : HouseFeatures) (s : runtime) :
  in_domain h = true ->
  exists fs : Z,
    App.furnishing_map !! furnishingstatus h = Some fs /\
    let v := [area h; bedrooms h; bathrooms h; stories h;
              Z.b2z (String.eqb (mainroad h) "Yes");
              Z.b2z (String.eqb (guestroom h) "Yes");
              Z.b2z (String.eqb (basement h) "Yes");
              Z.b2z (String.eqb (hotwaterheating h) "Yes");
              Z.b2z (String.eqb (airconditioning h) "Yes");
              parking h;
              Z.b2z (String.eqb (prefarea h) "Yes");
              fs] in
    App.input_features h s = (Ok v, s) /\
    Test.input_features h s = (Ok v, s) /\
    length v = 12%nat.
Proof.
  intros Hd. destruct (in_domain_furnishing h Hd) as [fs Hfs].
  exists fs. split; [exact Hfs|]. cbv zeta.
  split; [|split]; [apply input_features_ok, Hfs | | reflexivity].
  rewrite input_features_same. apply input_features_ok, Hfs.
Qed.

Lemma input_features_twelve_in_order_edges :
  (in_domain example_1000 = true /\
   exists fs : Z,
     App.furnishing_map !! "unfurnished" = Some fs /\
     App.input_features example_1000 process_start =
       (Ok [1000; 1; 1; 1; 0; 0; 0; 0; 0; 0; 0; fs], process_start) /\
     Test.input_features example_1000 process_start =
       (Ok [1000; 1; 1; 1; 0; 0; 0; 0; 0; 0; 0; fs], process_start) /\
     length [1000; 1; 1; 1; 0; 0; 0; 0; 0; 0; 0; fs] = 12%nat) /\
  (in_domain example_20000 = true /\
   exists fs : Z,
     App.furnishing_map !! "semi-furnished" = Some fs /\
     App.input_features example_20000 process_start =
       (Ok [20000; 8; 6; 4; 1; 0; 1; 0; 1; 3; 0; fs], process_start) /\
     Test.input_features example_20000 process_start =
       (Ok [20000; 8; 6; 4; 1; 0; 1; 0; 1; 3; 0; fs], process_start) /\
     length [20000; 8; 6; 4; 1; 0; 1; 0; 1; 3; 0; fs] = 12%nat).
Proof.
  split; (split; [reflexivity|]).
  - apply (input_features_twelve_in_order example_1000 process_start). reflexivity.
  - apply (input_features_twelve_in_order example_20000 process_start). reflexivity.
Defined.

(** C3: within the widget domains each Yes/No field is encoded as 1 for
    Yes and 0 for No, and the furnishing status as 0, 1 or 2 for
    unfurnished, semi-furnished, furnished. *)
Theorem input_features_codes (h : HouseFeatures) (s : runtime) :
  in_domain h = true ->
  exists v : list Z,
    App.input_features h s = (Ok v, s) /\
    Test.input_features h s = (Ok v, s) /\
    yes_no_code (mainroad h) (v !! 4%nat) /\
    yes_no_code (guestroom h) (v !! 5%nat) /\
    yes_no_code (basement h) (v !! 6%nat) /\
    yes_no_code (hotwaterheating h) (v !! 7%nat) /\
    yes_no_code (airconditioning h) (v !! 8%nat) /\
    yes_no_code (prefarea h) (v !! 10%nat) /\
    furnishing_code (furnishingstatus h) (v !! 11%nat).
Proof.
  intros Hd. destruct (in_domain_furnishing h Hd) as [fs Hfs].
  eexists. split; [apply (input_features_ok h fs s Hfs)|].
  split; [rewrite input_features_same; apply (input_features_ok h fs s Hfs)|].
  pose proof (in_domain_furnishing_code h fs Hd Hfs) as Hcode.
  unfold in_domain in Hd. rewrite !andb_true_iff in Hd.
  destruct Hd as [[[[[[[[[[[_ _] _] _] H4] H5] H6] H7] H8] _] H10] _].
  cbn [lookup list_lookup].
  repeat split; try (apply yes_no_code_b2z; assumption). exact Hcode.
Qed.

Lemma input_features_codes_default :
  in_domain example_default = true /\
  exists v : list Z,
    App.input_features example_default process_start = (Ok v, process_start) /\
    Test.input_features example_default process_start = (Ok v, process_start) /\
    yes_no_code "Yes" (v !! 4%nat) /\
    yes_no_code "Yes" (v !! 5%nat) /\
    yes_no_code "Yes" (v !! 6%nat) /\
    yes_no_code "Yes" (v !! 7%nat) /\
    yes_no_code "Yes" (v !! 8%nat) /\
    yes_no_code "Yes" (v !! 10%nat) /\
    furnishing_code "furnished" (v !! 11%nat).
Proof.
  split; [reflexivity|].
  apply (input_features_codes example_default process_start). reflexivity.
Defined.

Lemma repeatM_pure {A} (c : M A) (a : A) :
  (forall s, c s = (Ok a, s)) ->
  forall n s, repeatM n c s = (Ok (replicate n a), s).
Proof.
  intros Hc n. induction n as [|n IH]; intros s; [reflexivity|].
  cbn [repeatM]. unfold bind. rewrite Hc, IH. reflexivity.
Qed.

(** C7: within the widget domains, converting the same input any number
    of times, in any state of the process, gives the same list of twelve
    numbers every time and leaves page, inference log and cache as they
    were. *)
Theorem input_features_deterministic (h : HouseFeatures) :
  in_domain h = true ->
  exists v : list Z,
    length v = 12%nat /\
    forall (n : nat) (s : runtime),
      repeatM n (App.input_features h) s = (Ok (replicate n v), s) /\
      repeatM n (Test.input_features h) s = (Ok (replicate n v), s).
Proof.
  intros Hd. destruct (in_domain_furnishing h Hd) as [fs Hfs].
  eexists. split; [|intros n s; split; apply repeatM_pure; intros s'].
  2: apply (input_features_ok h fs s' Hfs).
  2: rewrite input_features_same; apply (input_features_ok h fs s' Hfs).
  reflexivity.
Qed.

Lemma input_features_deterministic_default :
  in_domain example_default = true /\
  exists v : list Z,
    length v = 12%nat /\
    forall (n : nat) (s : runtime),
      repeatM n (App.input_features example_default) s = (Ok (replicate n v), s) /\
      repeatM n (Test.input_features example_default) s = (Ok (replicate n v), s).
Proof.
  split; [reflexivity|].
  apply (input_features_deterministic example_default). reflexivity.
Defined.

(** ** The cached load *)

Lemma runtime_eta (s : runtime) :
  Runtime (page s) (inference_log s) (resource_cache s) = s.
Proof. destruct s; reflexivity. Qed.

Lemma replay_spec (els : list element) (s : runtime) :
  replay els s =
    (Ok tt, Runtime (page s ++ els) (inference_log s) (resource_cache s)).
Proof.
  revert s. induction els as [|el els IH]; intros s; cbn [replay].
  - unfold ret. rewrite app_nil_r, runtime_eta. reflexivity.
  - unfold bind, emit. rewrite IH. unfold add_element. cbn.
    rewrite <- app_assoc. reflexivity.
Qed.

Lemma load_model_same : Test.load_model = App.load_model.
Proof. reflexivity. Qed.

Lemma load_model_hit (file : artifact) (s : runtime) (v : option estimator)
    (els : list element) :
  resource_cache s = Some (v, els) ->
  App.load_model file s =
    (Ok v, Runtime (page s ++ els) (inference_log s) (resource_cache s)).
Proof.
  intros Hc. unfold App.load_model, cache_resource. rewrite Hc.
  unfold bind, ret. rewrite replay_spec, Hc. reflexivity.
Qed.

Lemma load_model_absent (s : runtime) :
  resource_cache s = None ->
  App.load_model Absent s =
    (Ok None, Runtime (page s ++ [not_found]) (inference_log s)
                      (Some (None, [not_found]))).
Proof.
  intros Hc. unfold App.load_model, cache_resource. rewrite Hc. reflexivity.
Qed.

Lemma load_model_pickled (m : estimator) (s : runtime) :
  resource_cache s = None ->
  App.load_model (Pickled m) s =
    (Ok (Some m), Runtime (page s) (inference_log s) (Some (Some m, []))).
Proof.
  intros Hc. unfold App.load_model, cache_resource. rewrite Hc. cbn.
  rewrite app_nil_r. reflexivity.
Qed.

Lemma load_model_unreadable (e : exn) (s : runtime) :
  resource_cache s = None ->
  is_FileNotFoundError e = false ->
  App.load_model (Unreadable e) s = (Raise e, s).
Proof.
  intros Hc He. unfold App.load_model, cache_resource, try_except. rewrite Hc.
  cbn. rewrite He. cbn. rewrite app_nil_r, <- Hc, runtime_eta. reflexivity.
Qed.

Lemma load_model_unreadable_fnf (e : exn) (s : runtime) :
  resource_cache s = None ->
  is_FileNotFoundError e = true ->
  App.load_model (Unreadable e) s =
    (Ok None, Runtime (page s ++ [not_found]) (inference_log s)
                      (Some (None, [not_found]))).
Proof.
  intros Hc He. unfold App.load_model, cache_resource, try_except. rewrite Hc.
  cbn. rewrite He. reflexivity.
Qed.

(** ** The [try] statement *)

Lemma try_statement_none (box : string -> string) (v : list Z) (s : runtime) :
  try_statement box None v s =
    (Ok tt, add_element (prediction_error none_has_no_predict) s).
Proof. reflexivity. Qed.

Lemma try_statement_raise (box : string -> string) (m : estimator) (v : list Z)
    (e : exn) (s : runtime) :
  predict m [v] = Raise e ->
  try_statement box (Some m) v s =
    (Ok tt, add_element (prediction_error e) (log_call [v] s)).
Proof.
  intros Hp. unfold try_statement, try_except, bind, call_predict.
  rewrite Hp. reflexivity.
Qed.

Lemma try_statement_empty (box : string -> string) (m : estimator) (v : list Z)
    (s : runtime) :
  predict m [v] = Ok [] ->
  try_statement box (Some m) v s =
    (Ok tt, add_element (prediction_error (index_error (answers_with m)))
                        (log_call [v] s)).
Proof.
  intros Hp. unfold try_statement, try_except, bind, call_predict.
  rewrite Hp. reflexivity.
Qed.

Lemma try_statement_first (box : string -> string) (m : estimator) (v : list Z)
    (first : pyval) (rest : list pyval) (s : runtime) :
  predict m [v] = Ok (first :: rest) ->
  try_statement box (Some m) v s =
    (Ok tt, add_element (shown_for box first) (log_call [v] s)).
Proof.
  intros Hp. unfold try_statement, try_except, bind, call_predict, shown_for.
  rewrite Hp. destruct first as [x|z|t|]; try reflexivity.
  cbn. destruct (float_of_int z); reflexivity.
Qed.

Lemma try_statement_float (box : string -> string) (m : estimator) (v : list Z)
    (x : spec_float) (rest : list pyval) (s : runtime) :
  predict m [v] = Ok (PyFloat x :: rest) ->
  try_statement box (Some m) v s =
    (Ok tt, add_element (StMarkdown (box (format_comma_2f x))) (log_call [v] s)).
Proof.
  intros Hp. unfold try_statement, try_except, bind, call_predict.
  rewrite Hp. reflexivity.
Qed.

(** Whatever the loaded object does, the [try] statement ends normally and
    leaves the cache alone. *)
Lemma try_statement_total (box : string -> string) (model : option estimator)
    (v : list Z) (s : runtime) :
  exists s', try_statement box model v s = (Ok tt, s') /\
             resource_cache s' = resource_cache s.
Proof.
  destruct model as [m|]; [|eexists; split; [apply try_statement_none|reflexivity]].
  destruct (predict m [v]) as [[|first rest]|e] eqn:Hp; eexists; (split; [|shelve]).
  - apply try_statement_empty, Hp.
  - apply (try_statement_first _ _ _ _ _ _ Hp).
  - apply try_statement_raise, Hp.
  Unshelve. all: reflexivity.
Qed.

(** ** The two scripts, after the load *)

Lemma app_main_unfold (file : artifact) (h : HouseFeatures) (b : bool) :
  App.main file h b =
    (model <- App.load_model file ;;
     features <- App.input_features h ;;
     if b then try_statement App.prediction_box model features else ret tt).
Proof. reflexivity. Qed.

Lemma test_main_unfold (file : artifact) (h : HouseFeatures) (b : bool) :
  Test.main file h b =
    (model <- App.load_model file ;;
     if b then
       features <- App.input_features h ;;
       try_statement Test.prediction_box model features
     else ret tt).
Proof. reflexivity. Qed.

(** Step over the load at the head of either [main]. *)
Ltac enter_main Hload :=
  first [rewrite app_main_unfold | rewrite test_main_unfold];
  unfold bind at 1; rewrite Hload.

(** Step over the load and the conversion. *)
Ltac enter_try Hload Hin :=
  enter_main Hload; unfold bind; rewrite Hin.

(** C10: with a furnishing status that is none of the three keys the
    dictionary lookup raises [KeyError] in both conversions.  In [app.py]
    the exception leaves [main] whether or not the button was pressed, in
    [test.py] once it was pressed; in both the state is the one the load
    left, so no prediction error message was shown and no inference made.
    ([Test.load_model] is the same function as [App.load_model].) *)
Theorem furnishing_key_error_uncaught (h : HouseFeatures) (file : artifact)
    (b : bool) (model : option estimator) (s0 s1 : runtime) :
  furnishingstatus h <> "unfurnished" ->
  furnishingstatus h <> "semi-furnished" ->
  furnishingstatus h <> "furnished" ->
  App.load_model file s0 = (Ok model, s1) ->
  let e := Exn KeyError (py_repr (furnishingstatus h)) in
  App.input_features h s1 = (Raise e, s1) /\
  Test.input_features h s1 = (Raise e, s1) /\
  App.main file h b s0 = (Raise e, s1) /\
  Test.main file h true s0 = (Raise e, s1).
Proof.
  intros H1 H2 H3 Hload e.
  pose proof (furnishing_map_other _ H1 H2 H3) as Hnone.
  pose proof (input_features_key_error h s1 Hnone) as Hin.
  split; [exact Hin|]. split; [rewrite input_features_same; exact Hin|].
  split; enter_try Hload Hin; reflexivity.
Qed.

Lemma furnishing_key_error_uncaught_luxury :
  let e := Exn KeyError "'luxury'" in
  let s1 := Runtime [not_found] [] (Some (None, [not_found])) in
  App.load_model Absent process_start = (Ok None, s1) /\
  App.input_features example_luxury s1 = (Raise e, s1) /\
  Test.input_features example_luxury s1 = (Raise e, s1) /\
  App.main Absent example_luxury false process_start = (Raise e, s1) /\
  Test.main Absent example_luxury true process_start = (Raise e, s1).
Proof.
  split; [reflexivity|].
  apply (furnishing_key_error_uncaught example_luxury Absent false None
           process_start (Runtime [not_found] [] (Some (None, [not_found]))));
    [discriminate | discriminate | discriminate | reflexivity].
Defined.

(** In [test.py] the conversion is not reached while the button is up. *)
Lemma test_main_button_up (h : HouseFeatures) (file : artifact)
    (model : option estimator) (s0 s1 : runtime) :
  Test.load_model file s0 = (Ok model, s1) ->
  Test.main file h false s0 = (Ok tt, s1).
Proof.
  intros Hload. rewrite test_main_unfold. unfold bind.
  rewrite load_model_same in Hload. rewrite Hload. reflexivity.
Qed.

(** C6: when the estimator's [predict] raises on the converted input, the
    [except] clause of the pressed-button run catches it: [main] ends
    normally, the page gains the message with the text of the exception,
    and nothing else changes but the record of the call. *)
Theorem predict_failure_is_caught (h : HouseFeatures) (v : list Z)
    (file : artifact) (m : estimator) (e : exn) (s0 s1 : runtime) :
  App.load_model file s0 = (Ok (Some m), s1) ->
  App.input_features h s1 = (Ok v, s1) ->
  predict m [v] = Raise e ->
  App.main file h true s0 =
    (Ok tt, add_element (StError ("Error making prediction: " +:+ exn_str e))
                        (log_call [v] s1)) /\
  Test.main file h true s0 =
    (Ok tt, add_element (StError ("Error making prediction: " +:+ exn_str e))
                        (log_call [v] s1)).
Proof.
  intros Hload Hin Hp.
  split; enter_try Hload Hin; apply try_statement_raise, Hp.
Qed.

Lemma predict_failure_is_caught_shape :
  let m := failing_model shape_error in
  let v := [7000; 4; 3; 3; 1; 1; 1; 1; 1; 2; 1; 2] in
  let s1 := Runtime [] [] (Some (Some m, [])) in
  let shown :=
    StError "Error making prediction: X has 11 features, but LinearRegression is expecting 12 features as input." in
  App.main (Pickled m) example_default true process_start =
    (Ok tt, Runtime [shown] [[v]] (Some (Some m, []))) /\
  Test.main (Pickled m) example_default true process_start =
    (Ok tt, Runtime [shown] [[v]] (Some (Some m, []))).
Proof.
  apply (predict_failure_is_caught example_default
           [7000; 4; 3; 3; 1; 1; 1; 1; 1; 2; 1; 2]
           (Pickled (failing_model shape_error)) (failing_model shape_error)
           shape_error process_start
           (Runtime [] [] (Some (Some (failing_model shape_error), []))));
    reflexivity.
Defined.

(** ** The process over a session *)

Lemma input_features_cases (h : HouseFeatures) (s : runtime) :
  (exists v, App.input_features h s = (Ok v, s)) \/
  (exists e, App.input_features h s = (Raise e, s)).
Proof.
  destruct (App.furnishing_map !! furnishingstatus h) as [fs|] eqn:Hfs.
  - left. eexists. apply (input_features_ok h fs s Hfs).
  - right. eexists. apply (input_features_key_error h s Hfs).
Qed.

(** After the load neither script touches the cache. *)
Lemma app_main_cache (file : artifact) (h : HouseFeatures) (b : bool) (s : runtime) :
  resource_cache (snd (App.main file h b s)) =
  resource_cache (snd (App.load_model file s)).
Proof.
  rewrite app_main_unfold. unfold bind at 1.
  destruct (App.load_model file s) as [[model|e] s1]; [|reflexivity].
  unfold bind. destruct (input_features_cases h s1) as [[v Hv]|[e He]].
  - rewrite Hv. destruct b; [|reflexivity].
    destruct (try_statement_total App.prediction_box model v s1) as (s' & Ht & Hc).
    rewrite Ht. exact Hc.
  - rewrite He. reflexivity.
Qed.

Lemma test_main_cache (file : artifact) (h : HouseFeatures) (b : bool) (s : runtime) :
  resource_cache (snd (Test.main file h b s)) =
  resource_cache (snd (App.load_model file s)).
Proof.
  rewrite test_main_unfold. unfold bind at 1.
  destruct (App.load_model file s) as [[model|e] s1]; [|reflexivity].
  destruct b; [|reflexivity].
  unfold bind. destruct (input_features_cases h s1) as [[v Hv]|[e He]].
  - rewrite Hv.
    destruct (try_statement_total Test.prediction_box model v s1) as (s' & Ht & Hc).
    rewrite Ht. exact Hc.
  - rewrite He. reflexivity.
Qed.

Lemma rerun_cache (main : artifact -> HouseFeatures -> bool -> M unit)
    (i : interaction) (c : option cached) :
  resource_cache (rerun main i c) =
  resource_cache (snd (main (file_now i) (widgets i) (button i) (Runtime [] [] c))).
Proof.
  unfold rerun.
  destruct (main (file_now i) (widgets i) (button i) (Runtime [] [] c)) as [[u|e] s];
    reflexivity.
Qed.

Lemma load_model_cache_wf (file : artifact) (s : runtime) :
  cache_wf (resource_cache s) ->
  cache_wf (resource_cache (snd (App.load_model file s))).
Proof.
  intros Hwf. destruct (resource_cache s) as [[v els]|] eqn:Hc.
  - rewrite (load_model_hit file s v els Hc). cbn. rewrite Hc. exact Hwf.
  - destruct file as [|e|m].
    + rewrite load_model_absent by exact Hc. right. left. reflexivity.
    + destruct (is_FileNotFoundError e) eqn:He.
      * rewrite load_model_unreadable_fnf by assumption. right. left. reflexivity.
      * rewrite load_model_unreadable by assumption. cbn. rewrite Hc. left. reflexivity.
    + rewrite load_model_pickled by exact Hc. right. right. eexists. reflexivity.
Qed.

(** A load that gives no estimator either returned [None], with the
    message on the page and [None] in the cache, or raised, with nothing
    shown and nothing cached. *)
Lemma load_model_failed (file : artifact) (c : option cached) :
  cache_wf c ->
  (forall m, load_outcome file c <> Ok (Some m)) ->
  App.load_model file (Runtime [] [] c) =
    (Ok None, Runtime [not_found] [] (Some (None, [not_found]))) \/
  exists e, App.load_model file (Runtime [] [] c) = (Raise e, Runtime [] [] None).
Proof.
  unfold load_outcome. intros [->|[->|[m ->]]] Hfail.
  - destruct file as [|e|m].
    + left. reflexivity.
    + destruct (is_FileNotFoundError e) eqn:He.
      * left. rewrite load_model_unreadable_fnf by (reflexivity || assumption).
        reflexivity.
      * right. exists e. apply load_model_unreadable; [reflexivity|assumption].
    + exfalso. apply (Hfail m). reflexivity.
  - left. reflexivity.
  - exfalso. apply (Hfail m). reflexivity.
Qed.

Lemma no_prediction_but_error_intro (el : element) (rest : list element)
    (c : option cached) :
  is_error_display el = true ->
  no_prediction_but_error (Runtime (el :: rest) [] c).
Proof. intros H. split; [reflexivity|]. apply Exists_cons_hd, H. Qed.

Section EitherScript.

(** What follows holds of [app.py] and of [test.py] alike. *)
Variable main : artifact -> HouseFeatures -> bool -> M unit.
Hypothesis Hmain : main = App.main \/ main = Test.main.

Lemma main_cache (file : artifact) (h : HouseFeatures) (b : bool) (s : runtime) :
  resource_cache (snd (main file h b s)) =
  resource_cache (snd (App.load_model file s)).
Proof.
  destruct Hmain as [-> | ->]; [apply app_main_cache | apply test_main_cache].
Qed.

Lemma rerun_cache_wf (i : interaction) (c : option cached) :
  cache_wf c -> cache_wf (resource_cache (rerun main i c)).
Proof.
  intros Hwf. rewrite rerun_cache, main_cache.
  apply load_model_cache_wf, Hwf.
Qed.

(** The invariant of the cache over the life of the process. *)
Lemma reachable_cache_wf (c : option cached) : reachable main c -> cache_wf c.
Proof.
  intros Hr. induction Hr as [|c i Hr IH].
  - left. reflexivity.
  - apply rerun_cache_wf, IH.
Qed.

(** A run in which [load_model] returned [None]. *)
Lemma rerun_after_none (i : interaction) (c : option cached) :
  App.load_model (file_now i) (Runtime [] [] c) =
    (Ok None, Runtime [not_found] [] (Some (None, [not_found]))) ->
  no_prediction_but_error (rerun main i c) /\
  resource_cache (rerun main i c) = Some (None, [not_found]).
Proof.
  intros Hload. split.
  2: { rewrite rerun_cache, main_cache, Hload. reflexivity. }
  unfold rerun.
  set (s1 := Runtime [not_found] [] (Some (None, [not_found]))) in *.
  destruct (input_features_cases (widgets i) s1) as [[v Hv]|[e He]];
    destruct Hmain as [-> | ->]; enter_main Hload;
    destruct (button i); unfold bind; rewrite ?Hv, ?He, ?try_statement_none;
    apply no_prediction_but_error_intro; reflexivity.
Qed.

(** A run in which [load_model] raised. *)
Lemma rerun_after_raise (i : interaction) (c : option cached) (e : exn) :
  App.load_model (file_now i) (Runtime [] [] c) = (Raise e, Runtime [] [] None) ->
  rerun main i c = Runtime [StException e] [] None.
Proof.
  intros Hload. unfold rerun.
  destruct Hmain as [-> | ->]; enter_main Hload; reflexivity.
Qed.

(** Once [None] is cached, every later run is without inference. *)
Lemma session_after_none (steps : list interaction) :
  Forall no_prediction_but_error (session main steps (Some (None, [not_found]))).
Proof.
  induction steps as [|i steps IH]; cbn [session]; [constructor|].
  destruct (rerun_after_none i (Some (None, [not_found]))) as [Hrun Hc].
  { apply (load_model_hit (file_now i) (Runtime [] [] (Some (None, [not_found])))
             None [not_found]). reflexivity. }
  constructor; [exact Hrun|]. rewrite Hc. exact IH.
Qed.

End EitherScript.

(** C4, as the scripts have it: at every interaction a process can come
    to, if [load_model] gives no estimator (it returned [None] or it
    raised), the run of either script makes no inference and shows an
    error on the page.  And when it returned [None], the same holds of
    every later interaction, whatever the file, the widgets and the button
    then are. *)
Theorem failed_load_never_predicts
    (main : artifact -> HouseFeatures -> bool -> M unit)
    (c : option cached) (i : interaction) :
  main = App.main \/ main = Test.main ->
  reachable main c ->
  (forall m, load_outcome (file_now i) c <> Ok (Some m)) ->
  no_prediction_but_error (rerun main i c) /\
  (load_outcome (file_now i) c = Ok None ->
   forall steps : list interaction,
     Forall no_prediction_but_error
       (session main steps (resource_cache (rerun main i c)))).
Proof.
  intros Hmain Hr Hfail.
  pose proof (reachable_cache_wf main Hmain c Hr) as Hwf.
  destruct (load_model_failed (file_now i) c Hwf Hfail) as [Hnone|[e Hraise]].
  - destruct (rerun_after_none main Hmain i c Hnone) as [Hrun Hc].
    split; [exact Hrun|]. intros _ steps. rewrite Hc.
    apply session_after_none, Hmain.
  - rewrite (rerun_after_raise main Hmain i c e Hraise).
    split; [apply no_prediction_but_error_intro; reflexivity|].
    unfold load_outcome. rewrite Hraise. discriminate.
Qed.

Lemma failed_load_never_predicts_absent :
  let i0 := Interaction Absent example_default true in
  let later := [Interaction (Pickled (stub_model price_13300000)) example_default true;
                Interaction Absent example_1000 false] in
  no_prediction_but_error (rerun Test.main i0 None) /\
  Forall no_prediction_but_error
    (session Test.main later (resource_cache (rerun Test.main i0 None))).
Proof.
  intros i0 later.
  destruct (failed_load_never_predicts Test.main None i0) as [Hrun Hlater].
  - right. reflexivity.
  - apply reachable_start.
  - intros m. vm_compute. discriminate.
  - split; [exact Hrun|]. apply Hlater. reflexivity.
Defined.

(** C4 as stated fails after a load that raised: the failed state does
    not last.  A damaged file at the first interaction and a good file at
    the second: the second run loads the estimator and calls it. *)
Lemma failed_state_is_not_terminal :
  ~ failed_state_is_terminal App.main /\ ~ failed_state_is_terminal Test.main.
Proof.
  split; intros H;
    specialize (H (Interaction (Unreadable unpickling_error) example_default true)
                  [Interaction (Pickled (stub_model price_13300000))
                               example_default true]);
    cbn [session] in H;
    (assert (Hfail : forall m, load_outcome (Unreadable unpickling_error) None
                               <> Ok (Some m)) by (intros m; vm_compute; discriminate));
    specialize (H Hfail);
    inversion H as [|? ? _ H2]; inversion H2 as [|? ? [Hlog _] _];
    vm_compute in Hlog; discriminate Hlog.
Qed.

(** A load that raised is not remembered: with a good file at the next
    interaction the estimator is loaded and called. *)
Lemma unreadable_load_is_retried :
  map inference_log
    (session App.main
       [Interaction (Unreadable unpickling_error) example_default true;
        Interaction (Pickled (stub_model price_13300000)) example_default true]
       None) =
  [[]; [[[7000; 4; 3; 3; 1; 1; 1; 1; 1; 2; 1; 2]]]].
Proof. reflexivity. Qed.

(** The two failures of the load inside [main]: a missing file is turned
    by [load_model] into the message and the value [None], both cached,
    and [main] goes on to its end in a degraded mode, a pressed button
    giving the prediction error message.  An exception of deserialization
    other than [FileNotFoundError] leaves [load_model] and [main] with
    nothing shown and nothing cached; the runner shows it. *)
Theorem load_failure_handling
    (main : artifact -> HouseFeatures -> bool -> M unit)
    (h : HouseFeatures) (b : bool) (e : exn) (s : runtime) :
  main = App.main \/ main = Test.main ->
  in_domain h = true ->
  resource_cache s = None ->
  is_FileNotFoundError e = false ->
  let s1 := Runtime (page s ++ [not_found]) (inference_log s)
                    (Some (None, [not_found])) in
  (App.load_model Absent s = (Ok None, s1) /\
   main Absent h b s =
     (Ok tt, if b then add_element (prediction_error none_has_no_predict) s1 else s1) /\
   continues_degraded main Absent h b s) /\
  (App.load_model (Unreadable e) s = (Raise e, s) /\
   main (Unreadable e) h b s = (Raise e, s) /\
   rerun main (Interaction (Unreadable e) h b) None = Runtime [StException e] [] None).
Proof.
  intros Hmain Hd Hc He s1.
  destruct (in_domain_furnishing h Hd) as [fs Hfs].
  pose proof (load_model_absent s Hc) as Habs. fold s1 in Habs.
  pose proof (load_model_unreadable e s Hc He) as Hun.
  assert (Hrun : main Absent h b s =
            (Ok tt, if b then add_element (prediction_error none_has_no_predict) s1
                    else s1)).
  { destruct Hmain as [-> | ->]; enter_main Habs; destruct b; unfold bind;
      rewrite ?(input_features_ok h fs s1 Hfs); reflexivity. }
  split; [split; [exact Habs|split; [exact Hrun|]] | split; [exact Hun|split]].
  - eexists. split; [exact Hrun|].
    split; [destruct b; reflexivity|].
    apply Exists_exists. exists not_found. split; [|reflexivity].
    destruct b; cbn; rewrite ?elem_of_app, list_elem_of_singleton; tauto.
  - destruct Hmain as [-> | ->]; enter_main Hun; reflexivity.
  - apply (rerun_after_raise main Hmain).
    apply (load_model_unreadable e (Runtime [] [] None)); [reflexivity|exact He].
Qed.

Lemma load_failure_handling_default :
  let s1 := Runtime [not_found] [] (Some (None, [not_found])) in
  let e := unpickling_error in
  (App.load_model Absent process_start = (Ok None, s1) /\
   App.main Absent example_default true process_start =
     (Ok tt, add_element (prediction_error none_has_no_predict) s1) /\
   continues_degraded App.main Absent example_default true process_start) /\
  (App.load_model (Unreadable e) process_start = (Raise e, process_start) /\
   App.main (Unreadable e) example_default true process_start = (Raise e, process_start) /\
   rerun App.main (Interaction (Unreadable e) example_default true) None =
     Runtime [StException e] [] None).
Proof.
  apply (load_failure_handling App.main example_default true unpickling_error
           process_start);
    [left; reflexivity | reflexivity | reflexivity | reflexivity].
Defined.

(** On a damaged file [main] itself does not come to its end: the
    exception of the load leaves it, and it is the runner that shows it. *)
Lemma unreadable_artifact_not_handled :
  ~ continues_degraded App.main (Unreadable unpickling_error) example_default true
      process_start /\
  ~ continues_degraded Test.main (Unreadable unpickling_error) example_default true
      process_start.
Proof. split; intros (s' & Hrun & _); discriminate Hrun. Qed.




(** ** The two scripts side by side *)

Lemma load_model_log (file : artifact) (s : runtime) :
  inference_log (snd (App.load_model file s)) = inference_log s.
Proof.
  unfold App.load_model, cache_resource.
  destruct (resource_cache s) as [[v els]|].
  - unfold bind. rewrite replay_spec. reflexivity.
  - destruct file as [|e|m]; cbn; [reflexivity| |reflexivity].
    unfold try_except. cbn. destruct (is_FileNotFoundError e); reflexivity.
Qed.

Lemma try_statement_log (box : string -> string) (model : option estimator)
    (v : list Z) (s : runtime) :
  inference_log (snd (try_statement box model v s)) =
  match model with
  | None => inference_log s
  | Some _ => inference_log s ++ [[v]]
  end.
Proof.
  destruct model as [m|]; [|reflexivity].
  destruct (predict m [v]) as [[|first rest]|e] eqn:Hp.
  - rewrite (try_statement_empty _ _ _ _ Hp). reflexivity.
  - rewrite (try_statement_first _ _ _ _ _ _ Hp). reflexivity.
  - rewrite (try_statement_raise _ _ _ _ _ Hp). reflexivity.
Qed.

Lemma rerun_log (main : artifact -> HouseFeatures -> bool -> M unit)
    (i : interaction) (c : option cached) :
  inference_log (rerun main i c) =
  inference_log (snd (main (file_now i) (widgets i) (button i) (Runtime [] [] c))).
Proof.
  unfold rerun.
  destruct (main (file_now i) (widgets i) (button i) (Runtime [] [] c)) as [[u|e] s];
    reflexivity.
Qed.

(** The batches a run hands to the estimator, when the conversion of the
    widget values gives [v]: the one row [v] if the button is pressed and
    an estimator is loaded, nothing otherwise. *)
Lemma main_log (h : HouseFeatures) (v : list Z) (file : artifact) (b : bool)
    (s : runtime) :
  (forall s', App.input_features h s' = (Ok v, s')) ->
  let calls :=
    match fst (App.load_model file s) with
    | Ok (Some _) => if b then [[v]] else []
    | _ => []
    end in
  inference_log (snd (App.main file h b s)) = inference_log s ++ calls /\
  inference_log (snd (Test.main file h b s)) = inference_log s ++ calls.
Proof.
  intros Hv calls. subst calls.
  pose proof (load_model_log file s) as Hlog.
  rewrite app_main_unfold, test_main_unfold. unfold bind at 1 3.
  destruct (App.load_model file s) as [[model|e] s1]; cbn [fst snd] in *.
  2: { rewrite app_nil_r. split; exact Hlog. }
  unfold bind. rewrite Hv. destruct b.
  - rewrite Hv, !try_statement_log, Hlog.
    destruct model; rewrite ?app_nil_r; split; reflexivity.
  - cbn. rewrite Hlog. destruct model; rewrite app_nil_r; split; reflexivity.
Qed.

(** C9: within the widget domains the two scripts convert the input to the
    same list of twelve numbers, hand the same batches to the estimator in
    every run (the one row, when the button is pressed and an estimator is
    loaded; none otherwise) and leave the same cache. *)
Theorem scripts_share_core (h : HouseFeatures) :
  in_domain h = true ->
  exists v : list Z,
    length v = 12%nat /\
    (forall s, App.input_features h s = (Ok v, s) /\
               Test.input_features h s = (Ok v, s)) /\
    forall (file : artifact) (b : bool) (c : option cached),
      let i := Interaction file h b in
      inference_log (rerun App.main i c) = inference_log (rerun Test.main i c) /\
      resource_cache (rerun App.main i c) = resource_cache (rerun Test.main i c) /\
      inference_log (rerun App.main i c) =
        match load_outcome file c with
        | Ok (Some _) => if b then [[v]] else []
        | _ => []
        end.
Proof.
  intros Hd. destruct (in_domain_furnishing h Hd) as [fs Hfs].
  eexists. split; [|split].
  2: { intros s. split; [|rewrite input_features_same];
         apply (input_features_ok h fs s Hfs). }
  1: reflexivity.
  intros file b c i.
  destruct (main_log h _ file b (Runtime [] [] c)
              (fun s' => input_features_ok h fs s' Hfs)) as [Ha Ht].
  rewrite !rerun_log, !rerun_cache. subst i. cbn [file_now widgets button].
  rewrite Ha, Ht, app_main_cache, test_main_cache.
  repeat split.
Qed.

Lemma scripts_share_core_default :
  in_domain example_default = true /\
  exists v : list Z,
    length v = 12%nat /\
    (forall s, App.input_features example_default s = (Ok v, s) /\
               Test.input_features example_default s = (Ok v, s)) /\
    forall (file : artifact) (b : bool) (c : option cached),
      let i := Interaction file example_default b in
      inference_log (rerun App.main i c) = inference_log (rerun Test.main i c) /\
      resource_cache (rerun App.main i c) = resource_cache (rerun Test.main i c) /\
      inference_log (rerun App.main i c) =
        match load_outcome file c with
        | Ok (Some _) => if b then [[v]] else []
        | _ => []
        end.
Proof.
  split; [reflexivity|].
  apply (scripts_share_core example_default). reflexivity.
Defined.

(** ** The format [,.2f] *)

Lemma round_half_even_nearest (n d : N) :
  (0 < d)%N ->
  2 * Z.abs (Z.of_N n - Z.of_N (round_half_even n d) * Z.of_N d) <= Z.of_N d.
Proof.
  intros Hd. unfold round_half_even.
  pose proof (N.div_mod n d ltac:(lia)) as Hdm.
  pose proof (N.mod_lt n d ltac:(lia)) as Hlt.
  set (q := (n / d)%N) in *. set (r := (n mod d)%N) in *.
  destruct (N.compare_spec (2 * r) d) as [He|Hl|Hg];
    [destruct (N.even q)|..]; nia.
Qed.

Lemma hundredths_nearest (s : bool) (m : positive) (e : Z) :
  nearest_hundredths (S754_finite s m e) (hundredths m e).
Proof.
  unfold nearest_hundredths, hundredths. destruct e as [|p|p].
  - change (Z.max 0 (- 0)) with 0. change (Z.max 0 0) with 0.
    replace (2 ^ 0) with 1 by reflexivity.
    rewrite N2Z.inj_mul. cbn [Z.of_N]. lia.
  - rewrite Z.max_r by lia. rewrite Z.max_l by lia.
    rewrite !N2Z.inj_mul, N2Z.inj_pow. cbn [Z.of_N]. 
    replace (2 ^ 0) with 1 by reflexivity. lia.
  - rewrite Z.max_l by lia. rewrite Z.max_r by lia.
    change (- Z.neg p) with (Z.pos p).
    replace (2 ^ 0) with 1 by reflexivity.
    pose proof (round_half_even_nearest (100 * N.pos m) (2 ^ N.pos p)) as H.
    rewrite N2Z.inj_pow, N2Z.inj_mul in H. cbn [Z.of_N] in H.
    rewrite Z.mul_1_r. apply H.
    apply N.neq_0_lt_0, N.pow_nonzero. discriminate.
Qed.

Lemma list_ascii_of_string_app (s1 s2 : string) :
  list_ascii_of_string (s1 +:+ s2) =
  list_ascii_of_string s1 ++ list_ascii_of_string s2.
Proof. induction s1 as [|c s1 IH]; simpl; [reflexivity|]. rewrite IH. reflexivity. Qed.

(** Reading the digits the way the printer of the Standard Library
    writes them. *)
Lemma read_uint_acc (d : Decimal.uint) (acc : positive) :
  fold_left read_digit (list_ascii_of_string (NilEmpty.string_of_uint d)) (Npos acc) =
  Npos (Pos.of_uint_acc d acc).
Proof.
  revert acc. induction d; intros acc; cbn [NilEmpty.string_of_uint
    list_ascii_of_string fold_left Pos.of_uint_acc]; [reflexivity|..];
    rewrite <- IHd; f_equal; unfold read_digit;
    change (is_digit _) with true; cbv iota; unfold digit_value;
    match goal with |- context [(N_of_ascii ?c - 48)%N] =>
      let k := eval vm_compute in (N_of_ascii c - 48)%N in
      change (N_of_ascii c - 48)%N with k
    end; lia.
Qed.

Lemma read_uint (d : Decimal.uint) :
  fold_left read_digit (list_ascii_of_string (NilEmpty.string_of_uint d)) 0%N =
  N.of_uint d.
Proof.
  induction d; cbn [NilEmpty.string_of_uint list_ascii_of_string fold_left];
    [reflexivity | exact IHd | ..]; apply read_uint_acc.
Qed.

Lemma nilzero_to_uint (n : N) :
  NilZero.string_of_uint (N.to_uint n) = NilEmpty.string_of_uint (N.to_uint n).
Proof.
  unfold NilZero.string_of_uint.
  destruct (N.to_uint n) eqn:H; try reflexivity.
  destruct n; [discriminate|]. cbn in H.
  exfalso. apply (Unsigned.to_uint_nonnil p H).
Qed.

Lemma decimal_value (n : N) : fold_left read_digit (decimal n) 0%N = n.
Proof.
  unfold decimal. rewrite nilzero_to_uint, read_uint.
  apply DecimalN.Unsigned.of_to.
Qed.

Lemma uint_digits (d : Decimal.uint) :
  Forall (fun c => is_digit c = true)
         (list_ascii_of_string (NilEmpty.string_of_uint d)).
Proof. induction d; cbn; constructor; (reflexivity || assumption). Qed.

Lemma decimal_digits (n : N) : Forall (fun c => is_digit c = true) (decimal n).
Proof. unfold decimal. rewrite nilzero_to_uint. apply uint_digits. Qed.

(** Grouping only adds commas. *)
Lemma group_rev_length_ind (P : list ascii -> Prop) :
  P [] -> (forall a, P [a]) -> (forall a b, P [a; b]) -> (forall a b c, P [a; b; c]) ->
  (forall a b c d rest, P (d :: rest) -> P (a :: b :: c :: d :: rest)) ->
  forall l, P l.
Proof.
  intros H0 H1 H2 H3 H4 l.
  assert (H : forall n l', (length l' <= n)%nat -> P l').
  { induction n as [|n IH]; intros l' Hl.
    - destruct l'; [exact H0 | cbn in Hl; lia].
    - destruct l' as [|a [|b [|c [|d rest]]]]; auto.
      apply H4, IH. cbn in Hl |- *. lia. }
  apply (H (length l) l). lia.
Qed.

Lemma group_rev_filter (l : list ascii) :
  List.filter is_digit (group_rev l) = List.filter is_digit l.
Proof.
  induction l as [| | | |a b c d rest IH] using group_rev_length_ind;
    try reflexivity.
  change (group_rev (a :: b :: c :: d :: rest))
    with (a :: b :: c :: ","%char :: group_rev (d :: rest)).
  cbn [List.filter]. rewrite IH.
  change (is_digit ","%char) with false. cbv iota. reflexivity.
Qed.

Lemma group_rev_chars (l : list ascii) (x : ascii) :
  In x (group_rev l) -> x = ","%char \/ In x l.
Proof.
  induction l as [| | | |a b c d rest IH] using group_rev_length_ind;
    try (right; assumption).
  change (group_rev (a :: b :: c :: d :: rest))
    with (a :: b :: c :: ","%char :: group_rev (d :: rest)).
  intros [H|[H|[H|[H|H]]]]; try (right; cbn [In]; tauto); [left; congruence|].
  destruct (IH H) as [?|Hin]; [left; assumption|].
  right. cbn [In] in Hin |- *. tauto.
Qed.

Lemma read_digit_filter (l : list ascii) (acc : N) :
  fold_left read_digit l acc = fold_left read_digit (List.filter is_digit l) acc.
Proof.
  revert acc. induction l as [|c l IH]; intros acc; [reflexivity|].
  cbn [fold_left List.filter]. destruct (is_digit c) eqn:Hc.
  - cbn [fold_left]. apply IH.
  - replace (read_digit acc c) with acc
      by (unfold read_digit; rewrite Hc; reflexivity).
    apply IH.
Qed.

Lemma grouped_chars (n : N) (x : ascii) :
  In x (list_ascii_of_string (grouped n)) -> x = ","%char \/ is_digit x = true.
Proof.
  unfold grouped. rewrite list_ascii_of_string_of_list_ascii, <- in_rev.
  intros H. apply group_rev_chars in H. destruct H as [H|H]; [left; exact H|].
  right. rewrite <- in_rev in H.
  pose proof (decimal_digits n) as Hd. rewrite List.Forall_forall in Hd. auto.
Qed.

Lemma grouped_value (n : N) :
  fold_left read_digit (list_ascii_of_string (grouped n)) 0%N = n.
Proof.
  unfold grouped. rewrite list_ascii_of_string_of_list_ascii.
  rewrite read_digit_filter, List.filter_rev, group_rev_filter.
  rewrite <- List.filter_rev, rev_involutive, <- read_digit_filter.
  apply decimal_value.
Qed.

Lemma digit_char_digit (n : N) : is_digit (digit_char n) = true.
Proof. destruct n as [|[[[|[]|]|[[]|[]|]|]|[[|[]|]|[[]|[]|]|]|]]; reflexivity. Qed.

Lemma digit_char_value (n : N) : (n < 10)%N -> digit_value (digit_char n) = n.
Proof.
  intros H. destruct n as [|[[[|[]|]|[[]|[]|]|]|[[|[]|]|[[]|[]|]|]|]];
    try reflexivity; lia.
Qed.

Lemma two_decimal_places_app (a : string) (d1 d2 : ascii) :
  (forall x, In x (list_ascii_of_string a) -> x <> "."%char) ->
  two_decimal_places (a +:+ "." +:+ String d1 (String d2 EmptyString)) =
  is_digit d1 && is_digit d2.
Proof.
  induction a as [|c a IH]; intros Ha; [reflexivity|].
  simpl. destruct (Ascii.eqb_spec c "."%char) as [->|_].
  - exfalso. apply (Ha "."%char); [left|]; reflexivity.
  - apply IH. intros x Hx. apply Ha. right. exact Hx.
Qed.

Lemma sign_and_grouped_chars (neg : bool) (n : N) (x : ascii) :
  In x (list_ascii_of_string ((if neg then "-" else EmptyString) +:+ grouped n)) ->
  x = "-"%char \/ x = ","%char \/ is_digit x = true.
Proof.
  rewrite list_ascii_of_string_app, in_app_iff. intros [H|H].
  - destruct neg; cbn in H; [left; destruct H as [<-|[]]; reflexivity | destruct H].
  - right. apply (grouped_chars n x H).
Qed.

Lemma fixed2_assoc (neg : bool) (q : N) :
  fixed2 neg q =
  ((if neg then "-" else EmptyString) +:+ grouped (q / 100)) +:+ "." +:+
  String (digit_char ((q mod 100) / 10)) (String (digit_char (q mod 10)) EmptyString).
Proof.
  unfold fixed2. destruct neg; [|reflexivity].
  reflexivity.
Qed.

Lemma fixed2_two_decimal_places (neg : bool) (q : N) :
  two_decimal_places (fixed2 neg q) = true.
Proof.
  rewrite fixed2_assoc, two_decimal_places_app.
  - rewrite !digit_char_digit. reflexivity.
  - intros x Hx. apply sign_and_grouped_chars in Hx.
    destruct Hx as [->|[->|Hx]]; try discriminate.
    intros ->. discriminate.
Qed.

Lemma fixed2_hundredths_shown (neg : bool) (q : N) :
  hundredths_shown (fixed2 neg q) = q.
Proof.
  unfold hundredths_shown. rewrite fixed2_assoc.
  rewrite !list_ascii_of_string_app, !fold_left_app.
  replace (fold_left read_digit (list_ascii_of_string (if neg then "-" else EmptyString)) 0%N)
    with 0%N by (destruct neg; reflexivity).
  rewrite grouped_value. cbn [list_ascii_of_string fold_left].
  unfold read_digit. change (is_digit "."%char) with false. cbv iota.
  rewrite !digit_char_digit.
  rewrite !digit_char_value.
  all: zify; Z.to_euclidean_division_equations; lia.
Qed.

Lemma fixed2_shown_negative (neg : bool) (q : N) :
  shown_negative (fixed2 neg q) = neg.
Proof.
  unfold fixed2. destruct neg; [reflexivity|].
  change (EmptyString +:+ ?s) with s.
  destruct (grouped (q / 100)) as [|c r] eqn:Hg; [reflexivity|].
  assert (Hc : c = ","%char \/ is_digit c = true).
  { apply (grouped_chars (q / 100)). rewrite Hg. left. reflexivity. }
  change (Ascii.eqb c "-"%char = false). apply Ascii.eqb_neq.
  destruct Hc as [->|Hc]; [discriminate|]. intros ->. discriminate.
Qed.

(** The text of a finite value has exactly two decimals. *)
Lemma format_two_decimal_places (x : spec_float) :
  is_finite x = true -> two_decimal_places (format_comma_2f x) = true.
Proof.
  destruct x; try discriminate; intros _; apply fixed2_two_decimal_places.
Qed.

(** Its digits spell a nearest count of hundredths. *)
Lemma format_nearest_hundredths (x : spec_float) :
  is_finite x = true ->
  nearest_hundredths x (hundredths_shown (format_comma_2f x)).
Proof.
  destruct x as [s| | |s m e]; try discriminate; intros _;
    cbn [format_comma_2f]; rewrite fixed2_hundredths_shown.
  - reflexivity.
  - apply hundredths_nearest.
Qed.

(** It starts with a minus sign exactly when the sign bit is set. *)
Lemma format_sign (x : spec_float) :
  shown_negative (format_comma_2f x) = sign_bit x.
Proof.
  destruct x as [s|s| |s m e]; cbn [format_comma_2f sign_bit];
    try apply fixed2_shown_negative; [destruct s|]; reflexivity.
Qed.

(** Outside the finite values there are no decimals to show. *)
Lemma format_not_finite :
  format_comma_2f S754_nan = "nan" /\
  format_comma_2f (S754_infinity false) = "inf" /\
  format_comma_2f (S754_infinity true) = "-inf".
Proof. repeat split. Qed.


(** ** The whole pipeline *)

(** C2: the default widget values are converted to
    [7000,4,3,3,1,1,1,1,1,2,1,2]; with an estimator that answers the same
    finite value [x] for every batch, a pressed-button run of either
    script hands that one row to the estimator and shows the box with a
    dollar sign followed by [x] as currency, and nothing else: the text
    has exactly two digits after its decimal point, the sign of [x], and
    digits that spell a count of hundredths nearest to the magnitude of
    [x]. *)
Theorem stub_model_pipeline (m : estimator) (x : spec_float) :
  (forall b : batch, predict m b = Ok [PyFloat x]) ->
  is_finite x = true ->
  let v := [7000; 4; 3; 3; 1; 1; 1; 1; 1; 2; 1; 2] in
  let text := format_comma_2f x in
  App.input_features example_default process_start = (Ok v, process_start) /\
  Test.input_features example_default process_start = (Ok v, process_start) /\
  rerun App.main (Interaction (Pickled m) example_default true) None =
    Runtime [StMarkdown (App.box_open +:+ "$" +:+ text +:+ App.box_close)]
            [[v]] (Some (Some m, [])) /\
  rerun Test.main (Interaction (Pickled m) example_default true) None =
    Runtime [StMarkdown (Test.box_open +:+ "$" +:+ text +:+ Test.box_close)]
            [[v]] (Some (Some m, [])) /\
  two_decimal_places text = true /\
  shown_negative text = sign_bit x /\
  nearest_hundredths x (hundredths_shown text).
Proof.
  intros Hm Hfin v text. split; [reflexivity|]. split; [reflexivity|].
  split; [|split; [|split; [|split]]].
  - unfold rerun. cbn [file_now widgets button].
    rewrite app_main_unfold. unfold bind at 1.
    rewrite (load_model_pickled m) by reflexivity.
    unfold bind.
    rewrite (input_features_ok example_default 2) by apply furnishing_map_furnished.
    rewrite (try_statement_float _ m _ x []) by apply Hm. reflexivity.
  - unfold rerun. cbn [file_now widgets button].
    rewrite test_main_unfold. unfold bind at 1.
    rewrite (load_model_pickled m) by reflexivity.
    unfold bind.
    rewrite (input_features_ok example_default 2) by apply furnishing_map_furnished.
    rewrite (try_statement_float _ m _ x []) by apply Hm. reflexivity.
  - apply format_two_decimal_places, Hfin.
  - apply format_sign.
  - apply format_nearest_hundredths, Hfin.
Qed.

Lemma stub_model_pipeline_13300000 :
  let m := stub_model price_13300000 in
  let v := [7000; 4; 3; 3; 1; 1; 1; 1; 1; 2; 1; 2] in
  (forall b : batch, predict m b = Ok [PyFloat price_13300000]) /\
  is_finite price_13300000 = true /\
  App.input_features example_default process_start = (Ok v, process_start) /\
  Test.input_features example_default process_start = (Ok v, process_start) /\
  rerun App.main (Interaction (Pickled m) example_default true) None =
    Runtime [StMarkdown (App.box_open +:+ "$13,300,000.00" +:+ App.box_close)]
            [[v]] (Some (Some m, [])) /\
  rerun Test.main (Interaction (Pickled m) example_default true) None =
    Runtime [StMarkdown (Test.box_open +:+ "$13,300,000.00" +:+ Test.box_close)]
            [[v]] (Some (Some m, [])) /\
  two_decimal_places "13,300,000.00" = true /\
  shown_negative "13,300,000.00" = false /\
  nearest_hundredths price_13300000 (hundredths_shown "13,300,000.00").
Proof.
  split; [intros b; reflexivity|]. split; [reflexivity|].
  apply (stub_model_pipeline (stub_model price_13300000) price_13300000).
  - intros b. reflexivity.
  - reflexivity.
Defined.

(** C8: when the estimator answers the converted input with a finite
    float [x] as first element, the pressed-button run of either script
    shows the box with a dollar sign followed by [x] in the [,.2f] format.
    That text has exactly two digits after its decimal point, carries a
    minus sign exactly when [x] has its sign bit set, and its digits spell
    a count of hundredths nearest to the magnitude of [x]. *)
Theorem prediction_shown_as_currency (h : HouseFeatures) (v : list Z)
    (file : artifact) (m : estimator) (x : spec_float) (rest : list pyval)
    (s0 s1 : runtime) :
  App.load_model file s0 = (Ok (Some m), s1) ->
  App.input_features h s1 = (Ok v, s1) ->
  predict m [v] = Ok (PyFloat x :: rest) ->
  is_finite x = true ->
  let text := format_comma_2f x in
  App.main file h true s0 =
    (Ok tt, add_element (StMarkdown (App.box_open +:+ "$" +:+ text +:+ App.box_close))
                        (log_call [v] s1)) /\
  Test.main file h true s0 =
    (Ok tt, add_element (StMarkdown (Test.box_open +:+ "$" +:+ text +:+ Test.box_close))
                        (log_call [v] s1)) /\
  two_decimal_places text = true /\
  shown_negative text = sign_bit x /\
  nearest_hundredths x (hundredths_shown text).
Proof.
  intros Hload Hin Hp Hfin text.
  split; [|split; [|split; [|split]]].
  - enter_try Hload Hin.
    exact (try_statement_float App.prediction_box m v x rest s1 Hp).
  - enter_try Hload Hin.
    exact (try_statement_float Test.prediction_box m v x rest s1 Hp).
  - apply format_two_decimal_places, Hfin.
  - apply format_sign.
  - apply format_nearest_hundredths, Hfin.
Qed.

Lemma prediction_shown_as_currency_4766318 :
  let m := stub_model price_4766318 in
  let v := [7000; 4; 3; 3; 1; 1; 1; 1; 1; 2; 1; 2] in
  let s1 := Runtime [] [] (Some (Some m, [])) in
  App.main (Pickled m) example_default true process_start =
    (Ok tt, Runtime [StMarkdown (App.box_open +:+ "$4,766,318.94" +:+ App.box_close)]
                    [[v]] (Some (Some m, []))) /\
  Test.main (Pickled m) example_default true process_start =
    (Ok tt, Runtime [StMarkdown (Test.box_open +:+ "$4,766,318.94" +:+ Test.box_close)]
                    [[v]] (Some (Some m, []))) /\
  two_decimal_places "4,766,318.94" = true /\
  shown_negative "4,766,318.94" = false /\
  nearest_hundredths price_4766318 (hundredths_shown "4,766,318.94").
Proof.
  apply (prediction_shown_as_currency example_default
           [7000; 4; 3; 3; 1; 1; 1; 1; 1; 2; 1; 2]
           (Pickled (stub_model price_4766318)) (stub_model price_4766318)
           price_4766318 [] process_start
           (Runtime [] [] (Some (Some (stub_model price_4766318), []))));
    reflexivity.
Defined.

(** * Further properties of the scripts *)

(** ** The [try] statement, case by case *)

(** X1: when the load returned and the conversion gave a vector, a
    pressed-button run never raises, whatever was loaded and whatever its
    [predict] does.  It adds exactly one element to the page: the same
    error message in both scripts, or the same price text in the box of
    each script. *)
Theorem pressed_button_ends_normally (h : HouseFeatures) (v : list Z)
    (file : artifact) (model : option estimator) (s0 s1 : runtime) :
  App.load_model file s0 = (Ok model, s1) ->
  App.input_features h s1 = (Ok v, s1) ->
  exists (el el' : element) (s2 : runtime),
    App.main file h true s0 = (Ok tt, add_element el s2) /\
    Test.main file h true s0 = (Ok tt, add_element el' s2) /\
    page s2 = page s1 /\
    resource_cache s2 = resource_cache s1 /\
    ((is_error_display el = true /\ el' = el) \/
     exists text, el = StMarkdown (App.prediction_box text) /\
                  el' = StMarkdown (Test.prediction_box text)).
Proof.
  intros Hload Hin.
  destruct model as [m|].
  2: { exists (prediction_error none_has_no_predict),
         (prediction_error none_has_no_predict), s1.
       split; [enter_try Hload Hin; apply try_statement_none|].
       split; [enter_try Hload Hin; apply try_statement_none|].
       repeat split. left. split; reflexivity. }
  destruct (predict m [v]) as [[|first rest]|e] eqn:Hp.
  - eexists _, _, (log_call [v] s1).
    split; [enter_try Hload Hin; apply (try_statement_empty _ _ _ _ Hp)|].
    split; [enter_try Hload Hin; apply (try_statement_empty _ _ _ _ Hp)|].
    repeat split. left. split; reflexivity.
  - exists (shown_for App.prediction_box first),
      (shown_for Test.prediction_box first), (log_call [v] s1).
    split; [enter_try Hload Hin; apply (try_statement_first _ _ _ _ _ _ Hp)|].
    split; [enter_try Hload Hin; apply (try_statement_first _ _ _ _ _ _ Hp)|].
    repeat split. unfold shown_for.
    destruct (fst (py_format_comma_2f first (Runtime [] [] None))) as [text|e'].
    + right. exists text. split; reflexivity.
    + left. split; reflexivity.
  - eexists _, _, (log_call [v] s1).
    split; [enter_try Hload Hin; apply (try_statement_raise _ _ _ _ _ Hp)|].
    split; [enter_try Hload Hin; apply (try_statement_raise _ _ _ _ _ Hp)|].
    repeat split. left. split; reflexivity.
Qed.

Lemma pressed_button_ends_normally_absent :
  let s1 := Runtime [not_found] [] (Some (None, [not_found])) in
  exists (el el' : element) (s2 : runtime),
    App.main Absent example_default true process_start = (Ok tt, add_element el s2) /\
    Test.main Absent example_default true process_start = (Ok tt, add_element el' s2) /\
    page s2 = page s1 /\
    resource_cache s2 = resource_cache s1 /\
    ((is_error_display el = true /\ el' = el) \/
     exists text, el = StMarkdown (App.prediction_box text) /\
                  el' = StMarkdown (Test.prediction_box text)).
Proof.
  apply (pressed_button_ends_normally example_default
           [7000; 4; 3; 3; 1; 1; 1; 1; 1; 2; 1; 2] Absent None process_start
           (Runtime [not_found] [] (Some (None, [not_found]))));
    reflexivity.
Defined.

(** X2: an estimator that answers with an empty sequence makes the
    indexing raise [IndexError]; the [except] clause shows it as the
    prediction error message, with the text of the type of the sequence
    (an array or a list), and no box is shown. *)
Theorem empty_result_is_reported (h : HouseFeatures) (v : list Z)
    (file : artifact) (m : estimator) (s0 s1 : runtime) :
  App.load_model file s0 = (Ok (Some m), s1) ->
  App.input_features h s1 = (Ok v, s1) ->
  predict m [v] = Ok [] ->
  let text :=
    match answers_with m with
    | NdArray => "index 0 is out of bounds for axis 0 with size 0"
    | PyList => "list index out of range"
    end in
  App.main file h true s0 =
    (Ok tt, add_element (StError ("Error making prediction: " +:+ text))
                        (log_call [v] s1)) /\
  Test.main file h true s0 =
    (Ok tt, add_element (StError ("Error making prediction: " +:+ text))
                        (log_call [v] s1)).
Proof.
  intros Hload Hin Hp text.
  split; enter_try Hload Hin; rewrite (try_statement_empty _ _ _ _ Hp);
    subst text; unfold prediction_error, index_error;
    destruct (answers_with m); reflexivity.
Qed.

Lemma empty_result_is_reported_default :
  let m := empty_model in
  let v := [7000; 4; 3; 3; 1; 1; 1; 1; 1; 2; 1; 2] in
  let shown :=
    StError "Error making prediction: index 0 is out of bounds for axis 0 with size 0" in
  App.main (Pickled m) example_default true process_start =
    (Ok tt, Runtime [shown] [[v]] (Some (Some m, []))) /\
  Test.main (Pickled m) example_default true process_start =
    (Ok tt, Runtime [shown] [[v]] (Some (Some m, []))).
Proof.
  apply (empty_result_is_reported example_default
           [7000; 4; 3; 3; 1; 1; 1; 1; 1; 2; 1; 2]
           (Pickled empty_model) empty_model process_start
           (Runtime [] [] (Some (Some empty_model, []))));
    reflexivity.
Defined.

(** X3: when the first element of the answer is an array (the row of an
    estimator with several outputs) the [,.2f] format raises [TypeError],
    and when it is a [str] (a text label) it raises [ValueError]; the
    [except] clause shows either as the prediction error message and no
    box is shown. *)
Theorem unformattable_result_is_reported (h : HouseFeatures) (v : list Z)
    (file : artifact) (m : estimator) (first : pyval) (rest : list pyval)
    (text : string) (s0 s1 : runtime) :
  App.load_model file s0 = (Ok (Some m), s1) ->
  App.input_features h s1 = (Ok v, s1) ->
  predict m [v] = Ok (first :: rest) ->
  (first = PyArray /\
   text = "unsupported format string passed to numpy.ndarray.__format__") \/
  ((exists label, first = PyStr label) /\
   text = "Unknown format code 'f' for object of type 'str'") ->
  App.main file h true s0 =
    (Ok tt, add_element (StError ("Error making prediction: " +:+ text))
                        (log_call [v] s1)) /\
  Test.main file h true s0 =
    (Ok tt, add_element (StError ("Error making prediction: " +:+ text))
                        (log_call [v] s1)).
Proof.
  intros Hload Hin Hp Hfirst.
  split; enter_try Hload Hin; rewrite (try_statement_first _ _ _ _ _ _ Hp);
    destruct Hfirst as [[-> ->]|[[label ->] ->]]; reflexivity.
Qed.

Lemma unformattable_result_is_reported_ndarray :
  let m := multi_output_model in
  let v := [7000; 4; 3; 3; 1; 1; 1; 1; 1; 2; 1; 2] in
  let shown :=
    StError "Error making prediction: unsupported format string passed to numpy.ndarray.__format__" in
  App.main (Pickled m) example_default true process_start =
    (Ok tt, Runtime [shown] [[v]] (Some (Some m, []))) /\
  Test.main (Pickled m) example_default true process_start =
    (Ok tt, Runtime [shown] [[v]] (Some (Some m, []))).
Proof.
  apply (unformattable_result_is_reported example_default
           [7000; 4; 3; 3; 1; 1; 1; 1; 1; 2; 1; 2]
           (Pickled multi_output_model) multi_output_model PyArray []
           "unsupported format string passed to numpy.ndarray.__format__"
           process_start (Runtime [] [] (Some (Some multi_output_model, []))));
    try reflexivity.
  left. split; reflexivity.
Defined.

(** A text label and a number label, run through both scripts. *)
Example labels_through_the_scripts :
  page (rerun App.main (Interaction (Pickled text_label_model) example_default true) None) =
    [StError "Error making prediction: Unknown format code 'f' for object of type 'str'"] /\
  page (rerun Test.main (Interaction (Pickled number_label_model) example_default true) None) =
    [StMarkdown (Test.box_open +:+ "$13,300,000.00" +:+ Test.box_close)].
Proof. split; reflexivity. Qed.

(** X4: a float that is not finite is no error to the scripts: the box is
    shown with [$nan], [$inf] or [$-inf], a text without decimals, and no
    error message appears. *)
Theorem non_finite_prediction_is_shown (h : HouseFeatures) (v : list Z)
    (file : artifact) (m : estimator) (x : spec_float) (rest : list pyval)
    (s0 s1 : runtime) :
  App.load_model file s0 = (Ok (Some m), s1) ->
  App.input_features h s1 = (Ok v, s1) ->
  predict m [v] = Ok (PyFloat x :: rest) ->
  is_finite x = false ->
  exists text : string,
    (text = "nan" \/ text = "inf" \/ text = "-inf") /\
    two_decimal_places text = false /\
    App.main file h true s0 =
      (Ok tt, add_element (StMarkdown (App.box_open +:+ "$" +:+ text +:+ App.box_close))
                          (log_call [v] s1)) /\
    Test.main file h true s0 =
      (Ok tt, add_element (StMarkdown (Test.box_open +:+ "$" +:+ text +:+ Test.box_close))
                          (log_call [v] s1)).
Proof.
  intros Hload Hin Hp Hfin. exists (format_comma_2f x).
  split; [destruct x as [s|[|]| |s m' e]; try discriminate; cbn; auto|].
  split; [destruct x as [s|[|]| |s m' e]; try discriminate; reflexivity|].
  split; enter_try Hload Hin.
  - exact (try_statement_float App.prediction_box m v x rest s1 Hp).
  - exact (try_statement_float Test.prediction_box m v x rest s1 Hp).
Qed.

Lemma non_finite_prediction_is_shown_nan :
  let m := stub_model S754_nan in
  let v := [7000; 4; 3; 3; 1; 1; 1; 1; 1; 2; 1; 2] in
  exists text : string,
    (text = "nan" \/ text = "inf" \/ text = "-inf") /\
    two_decimal_places text = false /\
    App.main (Pickled m) example_default true process_start =
      (Ok tt, add_element (StMarkdown (App.box_open +:+ "$" +:+ text +:+ App.box_close))
                          (log_call [v] (Runtime [] [] (Some (Some m, []))))) /\
    Test.main (Pickled m) example_default true process_start =
      (Ok tt, add_element (StMarkdown (Test.box_open +:+ "$" +:+ text +:+ Test.box_close))
                          (log_call [v] (Runtime [] [] (Some (Some m, []))))).
Proof.
  apply (non_finite_prediction_is_shown example_default
           [7000; 4; 3; 3; 1; 1; 1; 1; 1; 2; 1; 2]
           (Pickled (stub_model S754_nan)) (stub_model S754_nan) S754_nan []
           process_start (Runtime [] [] (Some (Some (stub_model S754_nan), []))));
    reflexivity.
Defined.

(** ** Edges of the [,.2f] format *)

Lemma fixed2_inj (neg : bool) (q q' : N) : fixed2 neg q = fixed2 neg q' -> q = q'.
Proof.
  intros H. rewrite <- (fixed2_hundredths_shown neg q), H.
  apply fixed2_hundredths_shown.
Qed.

Lemma hundredths_zero (m : positive) (e : Z) :
  hundredths m e = 0%N <-> 200 * Zpos m <= 2 ^ (- e).
Proof.
  unfold hundredths. destruct e as [|p|p].
  - cbn. split; [discriminate|lia].
  - change (- Z.pos p) with (Z.neg p). rewrite Z.pow_neg_r by lia.
    split; [|lia]. intros H. exfalso.
    pose proof (N.pow_nonzero 2 (N.pos p) ltac:(discriminate)). nia.
  - change (- Z.neg p) with (Z.pos p). unfold round_half_even.
    assert (Hd : (0 < 2 ^ N.pos p)%N)
      by (apply N.neq_0_lt_0, N.pow_nonzero; discriminate).
    assert (Hz : Z.of_N (2 ^ N.pos p) = 2 ^ Z.pos p)
      by (rewrite N2Z.inj_pow; reflexivity).
    pose proof (N.div_mod (100 * N.pos m) (2 ^ N.pos p) ltac:(lia)) as Hdm.
    pose proof (N.mod_lt (100 * N.pos m) (2 ^ N.pos p) ltac:(lia)) as Hlt.
    set (d := (2 ^ N.pos p)%N) in *.
    set (q := (100 * N.pos m / d)%N) in *. set (r := ((100 * N.pos m) mod d)%N) in *.
    rewrite <- Hz.
    destruct (N.compare_spec (2 * r) d) as [He|Hl|Hg].
    + destruct (N.even q) eqn:Hev; split; intros H; try nia.
      exfalso. assert (q = 0%N) by nia. subst q. rewrite H0 in Hev. discriminate.
    + split; intros H; nia.
    + split; intros H; nia.
Qed.

(** X5: a value is shown as zero exactly when it is at most half a
    hundredth in magnitude ([200 * m * 2^e <= 1]); a negative one keeps
    its sign, so a negative prediction that close to zero reads [-0.00]. *)
Theorem tiny_value_shown_as_zero (s : bool) (m : positive) (e : Z) :
  format_comma_2f (S754_finite s m e) = (if s then "-0.00" else "0.00") <->
  200 * Zpos m <= 2 ^ (- e).
Proof.
  rewrite <- hundredths_zero. cbn [format_comma_2f]. split.
  - intros H. apply (fixed2_inj s). rewrite H. destruct s; reflexivity.
  - intros ->. destruct s; reflexivity.
Qed.

Example minus_tiny_text : format_comma_2f minus_tiny = "-0.00".
Proof. reflexivity. Qed.

(** ** The cache over the life of the process *)

Section EitherScriptCache.

Variable main : artifact -> HouseFeatures -> bool -> M unit.
Hypothesis Hmain : main = App.main \/ main = Test.main.

(** With an estimator in the cache the file is not looked at. *)
Lemma rerun_ready (m : estimator) (file file' : artifact) (h : HouseFeatures)
    (b : bool) :
  rerun main (Interaction file h b) (Some (Some m, [])) =
  rerun main (Interaction file' h b) (Some (Some m, [])).
Proof.
  unfold rerun. cbn [file_now widgets button].
  assert (Hload : forall f, App.load_model f (Runtime [] [] (Some (Some m, []))) =
                            (Ok (Some m), Runtime [] [] (Some (Some m, [])))).
  { intros f. apply (load_model_hit f (Runtime [] [] (Some (Some m, [])))
                       (Some m) []). reflexivity. }
  destruct Hmain as [-> | ->].
  - rewrite !app_main_unfold. unfold bind at 1 3. rewrite !Hload. reflexivity.
  - rewrite !test_main_unfold. unfold bind at 1 3. rewrite !Hload. reflexivity.
Qed.

Lemma rerun_ready_cache (m : estimator) (i : interaction) :
  resource_cache (rerun main i (Some (Some m, []))) = Some (Some m, []).
Proof.
  rewrite rerun_cache, (main_cache main Hmain).
  rewrite (load_model_hit (file_now i) (Runtime [] [] (Some (Some m, [])))
             (Some m) []) by reflexivity.
  reflexivity.
Qed.

Lemma session_ready (m : estimator) (steps : list interaction) :
  Forall (fun s => resource_cache s = Some (Some m, []))
         (session main steps (Some (Some m, []))).
Proof.
  induction steps as [|i steps IH]; cbn [session]; [constructor|].
  constructor; [apply rerun_ready_cache|].
  rewrite rerun_ready_cache. exact IH.
Qed.

(** A run that finds a damaged file leaves an empty cache empty. *)
Lemma rerun_damaged (i : interaction) :
  finds_damaged_file i = true ->
  rerun main i None =
    match file_now i with
    | Unreadable e => Runtime [StException e] [] None
    | _ => Runtime [] [] None
    end.
Proof.
  unfold finds_damaged_file. destruct (file_now i) as [|e|m] eqn:Hf;
    try discriminate.
  intros He. apply negb_true_iff in He.
  apply (rerun_after_raise main Hmain). rewrite Hf.
  apply (load_model_unreadable e (Runtime [] [] None)); [reflexivity|exact He].
Qed.

Lemma cache_after_damaged (steps : list interaction) :
  forallb finds_damaged_file steps = true ->
  cache_after main steps None = None.
Proof.
  induction steps as [|i steps IH]; cbn [forallb cache_after]; [reflexivity|].
  intros H. apply andb_true_iff in H. destruct H as [Hi Hs].
  rewrite (rerun_damaged i Hi).
  destruct (file_now i); cbn; apply IH, Hs.
Qed.

End EitherScriptCache.

(** X6: once an estimator is in the cache it stays there for the life of
    the process and the file is never consulted again: a run gives the
    same page, inference log and cache whatever the file has become, be
    it deleted, damaged or replaced by another estimator. *)
Theorem loaded_estimator_is_kept
    (main : artifact -> HouseFeatures -> bool -> M unit) (m : estimator) :
  main = App.main \/ main = Test.main ->
  (forall h b, resource_cache (rerun main (Interaction (Pickled m) h b) None) =
               Some (Some m, [])) /\
  (forall file file' h b,
     rerun main (Interaction file h b) (Some (Some m, [])) =
     rerun main (Interaction file' h b) (Some (Some m, []))) /\
  (forall steps, Forall (fun s => resource_cache s = Some (Some m, []))
                        (session main steps (Some (Some m, [])))).
Proof.
  intros Hmain. split; [|split].
  - intros h b. rewrite rerun_cache, (main_cache main Hmain).
    cbn [file_now]. rewrite load_model_pickled by reflexivity. reflexivity.
  - apply (rerun_ready main Hmain).
  - apply (session_ready main Hmain).
Qed.

Lemma loaded_estimator_is_kept_app :
  let m := stub_model price_13300000 in
  (forall h b, resource_cache (rerun App.main (Interaction (Pickled m) h b) None) =
               Some (Some m, [])) /\
  (forall file file' h b,
     rerun App.main (Interaction file h b) (Some (Some m, [])) =
     rerun App.main (Interaction file' h b) (Some (Some m, []))) /\
  (forall steps, Forall (fun s => resource_cache s = Some (Some m, []))
                        (session App.main steps (Some (Some m, [])))).
Proof.
  apply (loaded_estimator_is_kept App.main (stub_model price_13300000)).
  left. reflexivity.
Defined.

(** X7: a load that raised leaves no trace in the cache.  After any
    number of interactions that found a damaged file the cache is empty,
    and the next interaction runs as in a process that has just started;
    with a good file it loads the estimator. *)
Theorem damaged_file_is_retried
    (main : artifact -> HouseFeatures -> bool -> M unit)
    (steps : list interaction) (m : estimator) :
  main = App.main \/ main = Test.main ->
  forallb finds_damaged_file steps = true ->
  cache_after main steps None = None /\
  load_outcome (Pickled m) (cache_after main steps None) = Ok (Some m) /\
  (forall i, rerun main i (cache_after main steps None) = rerun main i None).
Proof.
  intros Hmain Hs. rewrite (cache_after_damaged main Hmain steps Hs).
  repeat split.
Qed.

Lemma damaged_file_is_retried_twice :
  let steps := [Interaction (Unreadable unpickling_error) example_default true;
                Interaction (Unreadable unpickling_error) example_1000 false] in
  let m := stub_model price_13300000 in
  cache_after Test.main steps None = None /\
  load_outcome (Pickled m) (cache_after Test.main steps None) = Ok (Some m) /\
  (forall i, rerun Test.main i (cache_after Test.main steps None) = rerun Test.main i None).
Proof.
  apply (damaged_file_is_retried Test.main
           [Interaction (Unreadable unpickling_error) example_default true;
            Interaction (Unreadable unpickling_error) example_1000 false]
           (stub_model price_13300000));
    [right; reflexivity | reflexivity].
Defined.

(** X8: [load_model] tells a missing artifact by the class of the
    exception alone.  A [FileNotFoundError] raised from inside the
    deserialization of an existing file is answered like a missing file:
    the not-found message, the value [None], and both cached. *)
Theorem any_file_not_found_is_reported_missing (e : exn) (s : runtime) :
  is_FileNotFoundError e = true ->
  App.load_model (Unreadable e) s = App.load_model Absent s /\
  Test.load_model (Unreadable e) s = Test.load_model Absent s /\
  (resource_cache s = None ->
   App.load_model (Unreadable e) s =
     (Ok None, Runtime (page s ++ [not_found]) (inference_log s)
                       (Some (None, [not_found])))).
Proof.
  intros He.
  assert (H : App.load_model (Unreadable e) s = App.load_model Absent s).
  { destruct (resource_cache s) as [[v els]|] eqn:Hc.
    - rewrite !(load_model_hit _ s v els Hc). reflexivity.
    - rewrite load_model_unreadable_fnf, load_model_absent by assumption.
      reflexivity. }
  split; [exact H|]. split; [exact H|].
  intros Hc. apply load_model_unreadable_fnf; assumption.
Qed.

Lemma any_file_not_found_is_reported_missing_companion :
  App.load_model (Unreadable companion_missing) process_start =
    App.load_model Absent process_start /\
  Test.load_model (Unreadable companion_missing) process_start =
    Test.load_model Absent process_start /\
  App.load_model (Unreadable companion_missing) process_start =
    (Ok None, Runtime [not_found] [] (Some (None, [not_found]))).
Proof.
  destruct (any_file_not_found_is_reported_missing companion_missing process_start)
    as (H1 & H2 & H3); [reflexivity|].
  split; [exact H1|]. split; [exact H2|]. apply H3. reflexivity.
Defined.

(** X9: the cache of [load_model] keeps one of three shapes through every
    session: empty, [None] with exactly the not-found message, or an
    estimator with no message. *)
Theorem cache_keeps_its_shape
    (main : artifact -> HouseFeatures -> bool -> M unit) (c : option cached) :
  main = App.main \/ main = Test.main ->
  reachable main c ->
  c = None \/ c = Some (None, [not_found]) \/ exists m, c = Some (Some m, []).
Proof. intros Hmain Hr. exact (reachable_cache_wf main Hmain c Hr). Qed.

Lemma cache_keeps_its_shape_absent :
  let c := resource_cache (rerun App.main (Interaction Absent example_luxury false) None) in
  c = None \/ c = Some (None, [not_found]) \/ exists m, c = Some (Some m, []).
Proof.
  apply (cache_keeps_its_shape App.main
           (resource_cache (rerun App.main (Interaction Absent example_luxury false) None))).
  - left. reflexivity.
  - apply reachable_rerun, reachable_start.
Defined.

(** ** What reaches the estimator *)

Lemma main_log_key_error (h : HouseFeatures) (e : exn) (file : artifact)
    (b : bool) (s : runtime) :
  (forall s', App.input_features h s' = (Raise e, s')) ->
  inference_log (snd (App.main file h b s)) = inference_log s /\
  inference_log (snd (Test.main file h b s)) = inference_log s.
Proof.
  intros He. pose proof (load_model_log file s) as Hlog.
  rewrite app_main_unfold, test_main_unfold. unfold bind at 1 3.
  destruct (App.load_model file s) as [[model|e'] s1]; cbn [fst snd] in *.
  2: { split; exact Hlog. }
  unfold bind. rewrite He. destruct b; rewrite ?He; cbn; split; exact Hlog.
Qed.

(** X10: in one run the estimator is called at most once, and only with
    the button pressed, an estimator loaded and the conversion done; the
    batch is then the single row of twelve numbers.  This holds for all
    widget values, in and out of the domains, and from any cache. *)
Theorem at_most_one_call
    (main : artifact -> HouseFeatures -> bool -> M unit)
    (i : interaction) (c : option cached) :
  main = App.main \/ main = Test.main ->
  inference_log (rerun main i c) = [] \/
  exists (v : list Z) (m : estimator),
    button i = true /\
    load_outcome (file_now i) c = Ok (Some m) /\
    App.input_features (widgets i) process_start = (Ok v, process_start) /\
    length v = 12%nat /\
    inference_log (rerun main i c) = [[v]].
Proof.
  intros Hmain. rewrite rerun_log.
  destruct (App.furnishing_map !! furnishingstatus (widgets i)) as [fs|] eqn:Hfs.
  - destruct (main_log (widgets i) _ (file_now i) (button i) (Runtime [] [] c)
                (fun s' => input_features_ok (widgets i) fs s' Hfs)) as [Ha Ht].
    destruct Hmain as [-> | ->]; [rewrite Ha | rewrite Ht]; clear Ha Ht;
      cbn [inference_log app];
      change (fst (App.load_model (file_now i) (Runtime [] [] c)))
        with (load_outcome (file_now i) c);
      (destruct (load_outcome (file_now i) c) as [[m|]|e]; try (left; reflexivity);
       destruct (button i); [|left; reflexivity];
       right; eexists _, m; repeat split;
       first [apply (input_features_ok (widgets i) fs process_start Hfs)
             | reflexivity]).
  - left.
    destruct (main_log_key_error (widgets i) _ (file_now i) (button i)
                (Runtime [] [] c)
                (fun s' => input_features_key_error (widgets i) s' Hfs)) as [Ha Ht].
    destruct Hmain as [-> | ->]; [exact Ha | exact Ht].
Qed.

Lemma at_most_one_call_default :
  let i := Interaction (Pickled (stub_model price_13300000)) example_default true in
  inference_log (rerun App.main i None) = [] \/
  exists (v : list Z) (m : estimator),
    button i = true /\
    load_outcome (file_now i) None = Ok (Some m) /\
    App.input_features (widgets i) process_start = (Ok v, process_start) /\
    length v = 12%nat /\
    inference_log (rerun App.main i None) = [[v]].
Proof.
  apply (at_most_one_call App.main
           (Interaction (Pickled (stub_model price_13300000)) example_default true)
           None).
  left. reflexivity.
Defined.

(** ** The widget values, in and out of the domains *)

Lemma conversion_key_error (h : HouseFeatures) (s : runtime) :
  selectbox_ok String.eqb ["unfurnished"; "semi-furnished"; "furnished"]
    (furnishingstatus h) = false ->
  App.input_features h s = (Raise (Exn KeyError (py_repr (furnishingstatus h))), s) /\
  Test.input_features h s = (Raise (Exn KeyError (py_repr (furnishingstatus h))), s).
Proof.
  intros Hk.
  assert (Hnone : App.furnishing_map !! furnishingstatus h = None).
  { destruct (App.furnishing_map !! furnishingstatus h) as [fs|] eqn:Hfs;
      [|reflexivity].
    assert (Hs : is_Some (App.furnishing_map !! furnishingstatus h))
      by (rewrite Hfs; eexists; reflexivity).
    apply furnishing_map_keys in Hs. rewrite Hs in Hk. discriminate. }
  split; [|rewrite input_features_same]; apply (input_features_key_error h s Hnone).
Qed.

(** X11: the furnishing status is the only widget value the conversion
    can fail on.  With one of the three keys it succeeds for every other
    content of the widgets: numbers of any size pass unchanged and every
    text other than the exact [Yes] counts as 0.  With any other status it
    raises [KeyError]. *)
Theorem conversion_checks_furnishing_only (h : HouseFeatures) (s : runtime) :
  (selectbox_ok String.eqb ["unfurnished"; "semi-furnished"; "furnished"]
     (furnishingstatus h) = true ->
   exists fs : Z,
     (fs = 0 \/ fs = 1 \/ fs = 2) /\
     let v := [area h; bedrooms h; bathrooms h; stories h;
               Z.b2z (String.eqb (mainroad h) "Yes");
               Z.b2z (String.eqb (guestroom h) "Yes");
               Z.b2z (String.eqb (basement h) "Yes");
               Z.b2z (String.eqb (hotwaterheating h) "Yes");
               Z.b2z (String.eqb (airconditioning h) "Yes");
               parking h;
               Z.b2z (String.eqb (prefarea h) "Yes");
               fs] in
     App.input_features h s = (Ok v, s) /\ Test.input_features h s = (Ok v, s)) /\
  (selectbox_ok String.eqb ["unfurnished"; "semi-furnished"; "furnished"]
     (furnishingstatus h) = false ->
   let e := Exn KeyError (py_repr (furnishingstatus h)) in
   App.input_features h s = (Raise e, s) /\ Test.input_features h s = (Raise e, s)).
Proof.
  split.
  - intros Hk. pose proof Hk as Hk'. apply furnishing_map_keys in Hk'.
    destruct Hk' as [fs Hfs]. exists fs. split.
    + unfold selectbox_ok in Hk. simpl in Hk.
      rewrite !orb_true_iff, !String.eqb_eq in Hk.
      destruct Hk as [Hk|[Hk|[Hk|Hk]]]; try discriminate; rewrite Hk in Hfs.
      * rewrite furnishing_map_unfurnished in Hfs. injection Hfs as <-. auto.
      * rewrite furnishing_map_semi in Hfs. injection Hfs as <-. auto.
      * rewrite furnishing_map_furnished in Hfs. injection Hfs as <-. auto.
    + cbv zeta. split; [|rewrite input_features_same];
        apply (input_features_ok h fs s Hfs).
  - intros Hk e. apply (conversion_key_error h s Hk).
Qed.

(** Nothing but the furnishing status of [example_unchecked] is within
    its domain, and it is converted all the same. *)
Example example_unchecked_converted :
  in_domain example_unchecked = false /\
  App.input_features example_unchecked process_start =
    (Ok [-5; 0; 99; 0; 0; 0; 0; 0; 1; -1; 0; 2], process_start).
Proof. split; reflexivity. Qed.

(** X12: outside the domain of the furnishing widget the two scripts part
    ways while the button is up: [test.py] ends its run normally, showing
    only what the load showed, and [app.py] raises the [KeyError]. *)
Theorem scripts_differ_with_button_up (h : HouseFeatures) (file : artifact)
    (model : option estimator) (s0 s1 : runtime) :
  selectbox_ok String.eqb ["unfurnished"; "semi-furnished"; "furnished"]
    (furnishingstatus h) = false ->
  App.load_model file s0 = (Ok model, s1) ->
  Test.main file h false s0 = (Ok tt, s1) /\
  App.main file h false s0 = (Raise (Exn KeyError (py_repr (furnishingstatus h))), s1).
Proof.
  intros Hk Hload.
  destruct (conversion_key_error h s1 Hk) as [Hin _].
  split.
  - apply (test_main_button_up h file model s0 s1). exact Hload.
  - enter_try Hload Hin. reflexivity.
Qed.

Lemma scripts_differ_with_button_up_luxury :
  let s1 := Runtime [not_found] [] (Some (None, [not_found])) in
  Test.main Absent example_luxury false process_start = (Ok tt, s1) /\
  App.main Absent example_luxury false process_start =
    (Raise (Exn KeyError "'luxury'"), s1).
Proof.
  apply (scripts_differ_with_button_up example_luxury Absent None process_start
           (Runtime [not_found] [] (Some (None, [not_found]))));
    reflexivity.
Defined.

(** ** The property summary of [app.py] *)

Lemma input_features_inv (h : HouseFeatures) (v : list Z) (s : runtime) :
  App.input_features h s = (Ok v, s) ->
  exists fs : Z,
    v = [area h; bedrooms h; bathrooms h; stories h;
         Z.b2z (String.eqb (mainroad h) "Yes");
         Z.b2z (String.eqb (guestroom h) "Yes");
         Z.b2z (String.eqb (basement h) "Yes");
         Z.b2z (String.eqb (hotwaterheating h) "Yes");
         Z.b2z (String.eqb (airconditioning h) "Yes");
         parking h;
         Z.b2z (String.eqb (prefarea h) "Yes");
         fs].
Proof.
  destruct (App.furnishing_map !! furnishingstatus h) as [fs|] eqn:Hfs.
  - rewrite (input_features_ok h fs s Hfs). intros [= <-]. exists fs. reflexivity.
  - rewrite (input_features_key_error h s Hfs). discriminate.
Qed.

Lemma checklist_spec (lines : list string) (s : runtime) :
  AppSummary.checklist lines s =
    (Ok tt, Runtime (page s ++ map (fun l => StMarkdown ("- " +:+ l)) lines)
                    (inference_log s) (resource_cache s)).
Proof.
  revert s. induction lines as [|l lines IH]; intros s; cbn [AppSummary.checklist map].
  - unfold ret. rewrite app_nil_r, runtime_eta. reflexivity.
  - unfold bind, st_markdown, emit. rewrite IH. unfold add_element. cbn.
    rewrite <- app_assoc. reflexivity.
Qed.

(** X13: the checklist of [app.py] and the vector sent to the estimator
    agree: the loop shows six lines, and a line carries the tick exactly
    when the number at the place of its field in the vector is 1.  This
    holds for every content of the widgets for which the conversion
    succeeds. *)
Theorem checklist_agrees_with_vector (h : HouseFeatures) (v : list Z)
    (s s' : runtime) :
  App.input_features h s' = (Ok v, s') ->
  AppSummary.checklist (AppSummary.features h) s =
    (Ok tt, Runtime (page s ++ map (fun l => StMarkdown ("- " +:+ l))
                                   (AppSummary.features h))
                    (inference_log s) (resource_cache s)) /\
  length (AppSummary.features h) = 6%nat /\
  map ticked (AppSummary.features h) =
    map (fun k => bool_decide (v !! k = Some 1)) [4; 5; 6; 7; 8; 10]%nat.
Proof.
  intros Hin. split; [apply checklist_spec|]. split; [reflexivity|].
  destruct (input_features_inv h v s' Hin) as [fs ->].
  unfold AppSummary.features. cbn [map lookup list_lookup].
  repeat match goal with |- context [String.eqb ?a ?b] =>
    destruct (String.eqb a b) end; reflexivity.
Qed.

Lemma checklist_agrees_with_vector_20000 :
  let v := [20000; 8; 6; 4; 1; 0; 1; 0; 1; 3; 0; 1] in
  AppSummary.checklist (AppSummary.features example_20000) process_start =
    (Ok tt, Runtime (map (fun l => StMarkdown ("- " +:+ l))
                         (AppSummary.features example_20000)) [] None) /\
  length (AppSummary.features example_20000) = 6%nat /\
  map ticked (AppSummary.features example_20000) =
    map (fun k => bool_decide (v !! k = Some 1)) [4; 5; 6; 7; 8; 10]%nat.
Proof.
  apply (checklist_agrees_with_vector example_20000
           [20000; 8; 6; 4; 1; 0; 1; 0; 1; 3; 0; 1] process_start process_start).
  reflexivity.
Defined.

Lemma grouped_not_minus (n : N) (r : string) :
  shown_negative (grouped n +:+ String " "%char r) = false.
Proof.
  destruct (grouped n) as [|c g] eqn:Hg; [reflexivity|].
  assert (Hc : c = ","%char \/ is_digit c = true).
  { apply (grouped_chars n). rewrite Hg. left. reflexivity. }
  change (Ascii.eqb c "-"%char = false). apply Ascii.eqb_neq.
  destruct Hc as [->|Hc]; [discriminate|]. intros ->. discriminate.
Qed.

Lemma area_text_value (z : Z) :
  hundredths_shown (AppSummary.format_comma_int z +:+ " sq ft") = Z.abs_N z.
Proof.
  unfold hundredths_shown, AppSummary.format_comma_int.
  rewrite !list_ascii_of_string_app, !fold_left_app.
  replace (fold_left read_digit
             (list_ascii_of_string (if z <? 0 then "-" else EmptyString)) 0%N)
    with 0%N by (destruct (z <? 0); reflexivity).
  rewrite grouped_value. reflexivity.
Qed.

(** X14: the area text of the summary can be read back: the digits of
    [f"{area:,} sq ft"] spell the magnitude of the area, and the text
    starts with a minus sign exactly for a negative area. *)
Theorem area_text_round_trip (z : Z) :
  hundredths_shown (AppSummary.format_comma_int z +:+ " sq ft") = Z.abs_N z /\
  shown_negative (AppSummary.format_comma_int z +:+ " sq ft") = (z <? 0).
Proof.
  split; [apply area_text_value|].
  unfold AppSummary.format_comma_int. destruct (z <? 0); [reflexivity|].
  change (EmptyString +:+ ?g) with g. apply grouped_not_minus.
Qed.

Lemma in_domain_fields (h : HouseFeatures) :
  in_domain h = true ->
  1000 <= area h /\
  selectbox_ok String.eqb ["unfurnished"; "semi-furnished"; "furnished"]
    (furnishingstatus h) = true.
Proof.
  unfold in_domain, number_input_ok. rewrite !andb_true_iff.
  intros H. split; [|apply H]. lia.
Qed.

(** X15: within the widget domains the table of the summary tells the
    inputs it shows apart: two inputs with the same [Value] column have
    the same area, bedrooms, bathrooms, stories, parking and furnishing
    status. *)
Theorem summary_determines_inputs (h h' : HouseFeatures) :
  in_domain h = true ->
  in_domain h' = true ->
  snd (AppSummary.summary_data h) = snd (AppSummary.summary_data h') ->
  area h = area h' /\ bedrooms h = bedrooms h' /\ bathrooms h = bathrooms h' /\
  stories h = stories h' /\ parking h = parking h' /\
  furnishingstatus h = furnishingstatus h'.
Proof.
  intros Hd Hd' Heq.
  destruct (in_domain_fields h Hd) as [Ha Hf].
  destruct (in_domain_fields h' Hd') as [Ha' Hf'].
  cbn [snd AppSummary.summary_data] in Heq.
  injection Heq as Harea Hbed Hbath Hst Hpark Htitle.
  repeat split; try assumption.
  - apply (f_equal hundredths_shown) in Harea.
    rewrite !area_text_value in Harea. lia.
  - unfold selectbox_ok in Hf, Hf'. simpl in Hf, Hf'.
    rewrite !orb_true_iff, !String.eqb_eq in Hf, Hf'.
    destruct Hf as [Hf|[Hf|[Hf|Hf]]]; try discriminate;
      destruct Hf' as [Hf'|[Hf'|[Hf'|Hf']]]; try discriminate;
      rewrite Hf, Hf' in Htitle |- *; try reflexivity;
      vm_compute in Htitle; discriminate.
Qed.

Lemma summary_determines_inputs_no_road :
  in_domain example_default = true /\
  in_domain example_no_road = true /\
  snd (AppSummary.summary_data example_default) =
    snd (AppSummary.summary_data example_no_road) /\
  area example_default = area example_no_road /\
  bedrooms example_default = bedrooms example_no_road /\
  bathrooms example_default = bathrooms example_no_road /\
  stories example_default = stories example_no_road /\
  parking example_default = parking example_no_road /\
  furnishingstatus example_default = furnishingstatus example_no_road.
Proof.
  split; [reflexivity|]. split; [reflexivity|]. split; [reflexivity|].
  apply (summary_determines_inputs example_default example_no_road);
    reflexivity.
Defined.

(** ** The thousands separators *)

Lemma group_rev_commas (l : list ascii) :
  Forall (fun c => c <> ","%char) l ->
  forall i : nat,
    (i < length (group_rev l))%nat ->
    nth i (group_rev l) "0"%char = ","%char <-> (i mod 4 = 3)%nat.
Proof.
  induction l as [|a|a b|a b c|a b c d rest IH] using group_rev_length_ind;
    intros Hl i Hi.
  - cbn in Hi. lia.
  - cbn in Hi. assert (i = 0%nat) as -> by lia. cbn.
    inversion Hl; subst. split; [contradiction|discriminate].
  - cbn in Hi. inversion Hl as [|? ? Ha Hl1]; subst.
    inversion Hl1 as [|? ? Hb Hl2]; subst.
    destruct i as [|[|i]]; cbn; try lia;
      (split; [contradiction|discriminate]).
  - cbn in Hi. inversion Hl as [|? ? Ha Hl1]; subst.
    inversion Hl1 as [|? ? Hb Hl2]; subst.
    inversion Hl2 as [|? ? Hc Hl3]; subst.
    destruct i as [|[|[|i]]]; cbn; try lia;
      (split; [contradiction|discriminate]).
  - change (group_rev (a :: b :: c :: d :: rest))
      with (a :: b :: c :: ","%char :: group_rev (d :: rest)) in *.
    inversion Hl as [|? ? Ha Hl1]; subst.
    inversion Hl1 as [|? ? Hb Hl2]; subst.
    inversion Hl2 as [|? ? Hc Hl3]; subst.
    destruct i as [|[|[|[|i]]]].
    + cbn. split; [contradiction|discriminate].
    + cbn. split; [contradiction|discriminate].
    + cbn. split; [contradiction|discriminate].
    + cbn. split; reflexivity.
    + cbn [nth]. cbn [length] in Hi.
      rewrite (IH Hl3 i) by lia.
      change (S (S (S (S i)))) with (4 + i)%nat.
      replace (4 + i)%nat with (i + 1 * 4)%nat by lia.
      rewrite Nat.Div0.mod_add. reflexivity.
Qed.

Lemma group_rev_no_commas (l : list ascii) :
  Forall (fun c => c <> ","%char) l ->
  List.filter (fun c => negb (Ascii.eqb c ","%char)) (group_rev l) = l.
Proof.
  induction l as [|a|a b|a b c|a b c d rest IH] using group_rev_length_ind;
    intros Hl.
  - reflexivity.
  - inversion Hl as [|? ? Ha _]; subst. cbn.
    apply Ascii.eqb_neq in Ha. rewrite Ha. reflexivity.
  - inversion Hl as [|? ? Ha Hl1]; subst. inversion Hl1 as [|? ? Hb _]; subst.
    cbn. apply Ascii.eqb_neq in Ha, Hb. rewrite Ha, Hb. reflexivity.
  - inversion Hl as [|? ? Ha Hl1]; subst. inversion Hl1 as [|? ? Hb Hl2]; subst.
    inversion Hl2 as [|? ? Hc _]; subst.
    cbn. apply Ascii.eqb_neq in Ha, Hb, Hc. rewrite Ha, Hb, Hc. reflexivity.
  - change (group_rev (a :: b :: c :: d :: rest))
      with (a :: b :: c :: ","%char :: group_rev (d :: rest)).
    inversion Hl as [|? ? Ha Hl1]; subst. inversion Hl1 as [|? ? Hb Hl2]; subst.
    inversion Hl2 as [|? ? Hc Hl3]; subst.
    cbn [List.filter]. rewrite (IH Hl3).
    apply Ascii.eqb_neq in Ha, Hb, Hc. rewrite Ha, Hb, Hc. reflexivity.
Qed.

Lemma decimal_no_commas (n : N) : Forall (fun c => c <> ","%char) (decimal n).
Proof.
  eapply Forall_impl; [apply decimal_digits|].
  intros c Hc ->. discriminate.
Qed.

Lemma group_rev_last (l : list ascii) (d : ascii) :
  List.last (group_rev l) d = List.last l d.
Proof.
  induction l as [|a|a b|a b c|a b c e rest IH] using group_rev_length_ind;
    try reflexivity.
  change (group_rev (a :: b :: c :: e :: rest))
    with (a :: b :: c :: ","%char :: group_rev (e :: rest)).
  change (List.last (a :: b :: c :: e :: rest) d) with (List.last (e :: rest) d).
  rewrite <- IH.
  destruct (group_rev (e :: rest)) as [|g gs] eqn:Hg; [|reflexivity].
  destruct rest as [|? [|? [|? ?]]]; discriminate Hg.
Qed.

Lemma decimal_head (n : N) :
  exists d ds, decimal n = d :: ds /\ is_digit d = true.
Proof.
  pose proof (decimal_digits n) as Hd.
  destruct (decimal n) as [|d ds] eqn:Hn.
  - exfalso. unfold decimal, NilZero.string_of_uint in Hn.
    destruct (N.to_uint n); discriminate Hn.
  - exists d, ds. split; [reflexivity|]. inversion Hd; assumption.
Qed.

(** The text starts with the first decimal digit. *)
Lemma grouped_head (n : N) :
  exists d rest,
    list_ascii_of_string (grouped n) = d :: rest /\ is_digit d = true.
Proof.
  destruct (decimal_head n) as (d & ds & Hn & Hd).
  unfold grouped. rewrite list_ascii_of_string_of_list_ascii, Hn.
  cbn [rev].
  assert (Hne : group_rev (rev ds ++ [d]) <> []).
  { destruct (rev ds) as [|a [|b [|c [|e r]]]]; discriminate. }
  pose proof (group_rev_last (rev ds ++ [d]) d) as Hl.
  rewrite last_last in Hl.
  rewrite (app_removelast_last d Hne), Hl, rev_unit.
  exists d, (rev (removelast (group_rev (rev ds ++ [d])))).
  split; [reflexivity|exact Hd].
Qed.

(** X16: the separators of the integer part, in the price and in the
    area text alike: the text starts with a digit, taking the commas out
    leaves the plain decimal digits, counted from the right end a place
    holds a comma exactly when it is the fourth, the eighth, and so on,
    and the place to the left of a comma exists and holds a digit; so
    every comma has three digits after it and at least one before it. *)
Theorem commas_every_third_digit (n : N) :
  let text := list_ascii_of_string (grouped n) in
  (exists d rest, text = d :: rest /\ is_digit d = true) /\
  List.filter (fun c => negb (Ascii.eqb c ","%char)) text = decimal n /\
  (forall i : nat,
     (i < length text)%nat ->
     nth i (rev text) "0"%char = ","%char <-> (i mod 4 = 3)%nat) /\
  (forall i : nat,
     (i < length text)%nat ->
     nth i (rev text) "0"%char = ","%char ->
     (S i < length text)%nat /\
     is_digit (nth (S i) (rev text) "0"%char) = true).
Proof.
  cbv zeta.
  pose proof (grouped_head n) as Hhead.
  assert (Hfilter : List.filter (fun c => negb (Ascii.eqb c ","%char))
                      (list_ascii_of_string (grouped n)) = decimal n /\
                    forall i : nat,
                      (i < length (list_ascii_of_string (grouped n)))%nat ->
                      nth i (rev (list_ascii_of_string (grouped n))) "0"%char
                        = ","%char <-> (i mod 4 = 3)%nat).
  { unfold grouped. rewrite list_ascii_of_string_of_list_ascii.
    assert (Hr : Forall (fun c => c <> ","%char) (rev (decimal n))).
    { apply Forall_forall. intros c Hc. apply list_elem_of_In in Hc.
      apply in_rev in Hc.
      pose proof (decimal_no_commas n) as Hd. rewrite List.Forall_forall in Hd.
      apply Hd, Hc. }
    split.
    - rewrite List.filter_rev, group_rev_no_commas by exact Hr.
      apply rev_involutive.
    - intros i Hi. rewrite rev_involutive. rewrite length_rev in Hi.
      apply group_rev_commas; assumption. }
  destruct Hfilter as [Hfilter Hplaces].
  split; [exact Hhead|]. split; [exact Hfilter|]. split; [exact Hplaces|].
  set (text := list_ascii_of_string (grouped n)) in *.
  intros i Hi Hcomma.
  pose proof (proj1 (Hplaces i Hi) Hcomma) as Hmod.
  destruct Hhead as (d & rest & Htext & Hd).
  assert (Hlt : (S i < length text)%nat).
  { destruct (Nat.eq_dec (S i) (length text)) as [Heq|]; [|lia].
    exfalso. rewrite Htext in Hcomma, Heq. cbn [rev length] in Hcomma, Heq.
    rewrite app_nth2 in Hcomma by (rewrite length_rev; lia).
    rewrite length_rev in Hcomma.
    replace (i - length rest)%nat with 0%nat in Hcomma by lia.
    cbn in Hcomma. subst d. discriminate Hd. }
  split; [exact Hlt|].
  set (c := nth (S i) (rev text) "0"%char).
  assert (Hin : List.In c text).
  { apply in_rev. apply nth_In. rewrite length_rev. exact Hlt. }
  assert (Hnc : c <> ","%char).
  { intros Hc. apply (Hplaces (S i) Hlt) in Hc.
    replace (S i) with (i + 1)%nat in Hc by lia.
    rewrite <- Nat.Div0.add_mod_idemp_l, Hmod in Hc. discriminate Hc. }
  assert (Hdec : List.In c (decimal n)).
  { rewrite <- Hfilter. apply List.filter_In. split; [exact Hin|].
    destruct (Ascii.eqb_spec c ","%char); [contradiction|reflexivity]. }
  pose proof (decimal_digits n) as Hdig. rewrite List.Forall_forall in Hdig.
  apply Hdig, Hdec.
Qed.

(** ** The degraded mode, run after run *)

(** X17: once [None] is cached, a run with widget values within their
    domains shows the same page whatever the file has become: the
    not-found message alone while the button is up, followed by the
    message that [None] has no [predict] when it is pressed.  No inference
    is made and the cache stays as it is. *)
Theorem degraded_mode_pages
    (main : artifact -> HouseFeatures -> bool -> M unit) (i : interaction) :
  main = App.main \/ main = Test.main ->
  in_domain (widgets i) = true ->
  rerun main i (Some (None, [not_found])) =
    Runtime (if button i
             then [not_found;
                   StError "Error making prediction: 'NoneType' object has no attribute 'predict'"]
             else [not_found])
            [] (Some (None, [not_found])).
Proof.
  intros Hmain Hd. destruct (in_domain_furnishing (widgets i) Hd) as [fs Hfs].
  assert (Hload : App.load_model (file_now i) (Runtime [] [] (Some (None, [not_found]))) =
                  (Ok None, Runtime [not_found] [] (Some (None, [not_found]))))
    by (apply (load_model_hit (file_now i) (Runtime [] [] (Some (None, [not_found])))
                 None [not_found]); reflexivity).
  unfold rerun.
  destruct Hmain as [-> | ->]; enter_main Hload; destruct (button i); unfold bind;
    rewrite ?(input_features_ok (widgets i) fs _ Hfs); reflexivity.
Qed.

Lemma degraded_mode_pages_file_back :
  let i := Interaction (Pickled (stub_model price_13300000)) example_default true in
  rerun App.main i (Some (None, [not_found])) =
    Runtime [not_found;
             StError "Error making prediction: 'NoneType' object has no attribute 'predict'"]
            [] (Some (None, [not_found])).
Proof.
  apply (degraded_mode_pages App.main
           (Interaction (Pickled (stub_model price_13300000)) example_default true));
    [left; reflexivity | reflexivity].
Defined.
